(** * Print-and-Place: the G-code injector [gcode-inject.py]

    A shallow embedding of the drill parser, the instruction-stream indexer,
    the hole-fill synthesizer and the splicing done by [main], followed by
    the properties the specification states about them.

    Conventions of the embedding.
    - A text file is the list of its lines, as Python's iteration over a
      file object and [readlines()] yield them (each line keeps its line
      terminator).  A line is a [string]; a character is a code point below
      256.
    - A Python exception is a value of [exn]; a function that may raise
      returns a [result].  Nothing is written to the output file unless
      [main] reaches [write_gcode], so [Raise] also means: no output.
    - Python [float]s are kept abstract: the program is parametrised by a
      [FloatOps] structure giving the arithmetic, [round(_, 2)], [float()]
      and the formatting used by f-strings.  The general theorems hold for
      every such structure, binary64 included.  Closed examples are run on
      the instance [Dec] of exact decimal arithmetic, at inputs on which
      binary64 is exact as well. *)

From Stdlib Require Import String Ascii List ZArith Lia Bool Arith DecimalString.
From Stdlib Require Import Sorted.
Import ListNotations.

Local Open Scope string_scope.
Local Open Scope list_scope.

(** String concatenation, kept apart from list concatenation [++]. *)
Infix "+++" := String.append (right associativity, at level 60).

(** ** Exceptions and results *)

Inductive exn : Type :=
| ValueError (msg : string)        (* [raise ValueError(msg)] in [main] *)
| FloatError (arg : string)        (* the ValueError of [float(arg)] *)
| TypeError                        (* arithmetic on [None] *)
| IndexError                       (* list index out of range *)
| UnboundLocalError.               (* a loop variable read after an empty loop *)

Inductive result (A : Type) : Type :=
| Ok (a : A)
| Raise (e : exn).

Arguments Ok {A} a.
Arguments Raise {A} e.

Definition bind {A B : Type} (m : result A) (k : A -> result B) : result B :=
  match m with
  | Ok a => k a
  | Raise e => Raise e
  end.

Notation "x <- m ;; k" := (bind m (fun x => k))
  (at level 61, m at next level, right associativity).
Notation "' p <- m ;; k" := (bind m (fun x => let p := x in k))
  (at level 61, p pattern, m at next level, right associativity).

Definition is_ok {A : Type} (m : result A) : bool :=
  match m with Ok _ => true | Raise _ => false end.

(** A [for] loop whose body may raise. *)
Fixpoint foldM {St A : Type} (body : St -> A -> result St) (l : list A)
  (s : St) : result St :=
  match l with
  | [] => Ok s
  | a :: l' => s' <- body s a ;; foldM body l' s'
  end.

(** The elements of [l], each mapped by a function that may raise, in order. *)
Fixpoint mapM {A B : Type} (f : A -> result B) (l : list A) : result (list B) :=
  match l with
  | [] => Ok []
  | a :: l' => b <- f a ;; bs <- mapM f l' ;; Ok (b :: bs)
  end.

(** ** Python strings *)

Module Py.

Definition nl : string := String (ascii_of_nat 10) EmptyString.

(** [str.isspace] on code points below 256. *)
Definition is_space (c : ascii) : bool :=
  let n := nat_of_ascii c in
  (((9 <=? n) && (n <=? 13)) || ((28 <=? n) && (n <=? 32))
   || (n =? 133) || (n =? 160))%nat.

(** [s.startswith(p)] *)
Definition startswith (p s : string) : bool := String.prefix p s.

(** [c in s] for a one-character [c] *)
Fixpoint contains (c : ascii) (s : string) : bool :=
  match s with
  | EmptyString => false
  | String d s' => Ascii.eqb c d || contains c s'
  end.

Fixpoint lstrip (s : string) : string :=
  match s with
  | EmptyString => EmptyString
  | String c s' => if is_space c then lstrip s' else s
  end.

Fixpoint rstrip (s : string) : string :=
  match s with
  | EmptyString => EmptyString
  | String c s' =>
      match rstrip s' with
      | EmptyString => if is_space c then EmptyString else String c EmptyString
      | r => String c r
      end
  end.

(** [s.strip()] *)
Definition strip (s : string) : string := rstrip (lstrip s).

(** [s.split(sep)] for a one-character separator: never empty. *)
Fixpoint split (sep : ascii) (s : string) : list string :=
  match s with
  | EmptyString => [EmptyString]
  | String c s' =>
      if Ascii.eqb c sep then EmptyString :: split sep s'
      else match split sep s' with
           | f :: fs => String c f :: fs
           | [] => [String c EmptyString]
           end
  end.

(** [s.split()]: the maximal runs of non-space characters. *)
Fixpoint split_ws (s : string) : list string :=
  match s with
  | EmptyString => []
  | String c s' =>
      if is_space c then split_ws s'
      else match s' with
           | EmptyString => [String c EmptyString]
           | String c' _ =>
               if is_space c' then String c EmptyString :: split_ws s'
               else match split_ws s' with
                    | t :: ts => String c t :: ts
                    | [] => [String c EmptyString]
                    end
           end
  end.

(** [s[1:]] *)
Definition drop1 (s : string) : string :=
  match s with
  | EmptyString => EmptyString
  | String _ s' => s'
  end.

(** [l[i]] *)
Definition index {A : Type} (l : list A) (i : nat) : result A :=
  match nth_error l i with
  | Some a => Ok a
  | None => Raise IndexError
  end.

(** [l.insert(i, a)]: past the end it appends. *)
Definition insert {A : Type} (i : nat) (a : A) (l : list A) : list A :=
  firstn i l ++ a :: skipn i l.

(** [enumerate(l)], counting from [k]. *)
Fixpoint enumerate_from {A : Type} (k : nat) (l : list A) : list (nat * A) :=
  match l with
  | [] => []
  | a :: l' => (k, a) :: enumerate_from (S k) l'
  end.

Definition enumerate {A : Type} (l : list A) : list (nat * A) :=
  enumerate_from 0 l.

End Py.

(** ** Floats *)

Class FloatOps : Type := {
  num : Type;
  (** the literal [m] * 10^-[e]: [lit 5 0] is [5], [lit 5 2] is [0.05] *)
  lit : Z -> nat -> num;
  fadd : num -> num -> num;
  fsub : num -> num -> num;
  fmul : num -> num -> num;
  (** [round(x, 2)] *)
  round2 : num -> num;
  (** [str(x)], the text an f-string puts for [{x}] *)
  repr : num -> string;
  (** [float(s)]; [None] stands for its ValueError *)
  float_of_string : string -> option num
}.

Definition pyfloat `{FloatOps} (s : string) : result num :=
  match float_of_string s with
  | Some x => Ok x
  | None => Raise (FloatError s)
  end.

(** The text an f-string puts for a value that is a float or [None]. *)
Definition fmt `{FloatOps} (v : option num) : string :=
  match v with
  | Some x => repr x
  | None => "None"
  end.

(** ** The program *)

Section Program.

Context `{FloatOps}.

Definition hole : Type := num * num.

(** What [get_last_coords] returns: each axis is a float or [None]. *)
Definition pose : Type := option num * option num * option num.

(** (name, start line, end line), as [get_gcode_sections] appends them. *)
Definition section : Type := string * nat * nat.

Definition sec_name (s : section) : string := fst (fst s).
Definition sec_start (s : section) : nat := snd (fst s).
Definition sec_end (s : section) : nat := snd s.

(** *** [parse_drill_file] *)

(** [current_tool == tool], where [current_tool] is [None] or a string. *)
Definition tool_eqb (current_tool : option string) (tool : string) : bool :=
  match current_tool with
  | Some t => String.eqb t tool
  | None => false
  end.

(** One iteration of the loop; the state is ([current_tool], [holes]). *)
Definition drill_body (tool : string) (st : option string * list hole)
  (line : string) : result (option string * list hole) :=
  let '(current_tool, holes) := st in
  let line := Py.strip line in
  let current_tool :=
    if Py.startswith "T" line && negb (Py.contains "C" line)
    then Some line else current_tool in
  if Py.startswith "X" line && Py.contains "Y" line
     && tool_eqb current_tool tool
  then
    let parts := Py.split "Y" line in
    p0 <- Py.index parts 0 ;;
    let x := Py.drop1 p0 in
    y <- Py.index parts 1 ;;
    fx <- pyfloat x ;;
    fy <- pyfloat y ;;
    Ok (current_tool, holes ++ [(fx, fy)])
  else Ok (current_tool, holes).

Definition parse_drill_file (drill_file : list string) (tool : string)
  : result (list hole) :=
  st <- foldM (drill_body tool) drill_file (None, []) ;;
  Ok (snd st).

(** *** [get_gcode_sections] *)

Record sections_state : Type := {
  sections : list section;
  current_section : string;
  current_start_line : nat;
  (** the loop variable [i]: unbound until the first iteration *)
  loop_i : option nat
}.

Definition sections_body (st : sections_state) (il : nat * string)
  : result sections_state :=
  let '(i, line) := il in
  if Py.startswith ";TYPE:" line then
    name <- Py.index (Py.split ":" line) 1 ;;
    Ok {| sections :=
            sections st ++ [(current_section st, current_start_line st, i)];
          current_section := Py.strip name;
          current_start_line := i + 1;
          loop_i := Some i |}
  else
    Ok {| sections := sections st;
          current_section := current_section st;
          current_start_line := current_start_line st;
          loop_i := Some i |}.

Definition get_gcode_sections (gcode_file : list string)
  : result (list section) :=
  st <- foldM sections_body (Py.enumerate gcode_file)
          {| sections := []; current_section := "Header";
             current_start_line := 0; loop_i := None |} ;;
  match loop_i st with
  | Some i =>
      Ok (sections st ++ [(current_section st, current_start_line st, i)])
  | None => Raise UnboundLocalError
  end.

(** *** [get_tool_changes] *)

Fixpoint tool_changes_loop (ils : list (nat * string)) : list (nat * string) :=
  match ils with
  | [] => []
  | (i, line) :: ils' =>
      if Py.startswith "T" line
      then (i, Py.strip line) :: tool_changes_loop ils'
      else tool_changes_loop ils'
  end.

Definition get_tool_changes (gcode_file : list string) : list (nat * string) :=
  tool_changes_loop (Py.enumerate gcode_file).

(** *** [get_last_coords] *)

Definition coords_part (st : pose) (part : string) : result pose :=
  let '(last_x, last_y, last_z) := st in
  if Py.startswith "X" part then
    v <- pyfloat (Py.drop1 part) ;; Ok (Some v, last_y, last_z)
  else if Py.startswith "Y" part then
    v <- pyfloat (Py.drop1 part) ;; Ok (last_x, Some v, last_z)
  else if Py.startswith "Z" part then
    v <- pyfloat (Py.drop1 part) ;; Ok (last_x, last_y, Some v)
  else Ok st.

Definition coords_line (st : pose) (line : string) : result pose :=
  if Py.startswith "G0" line || Py.startswith "G1" line
  then foldM coords_part (Py.split_ws line) st
  else Ok st.

Definition get_last_coords (lines : list string) : result pose :=
  foldM coords_line lines (None, None, None).

(** *** [generate_gcode_for_holes] *)

(** The nine lines appended for one hole [(x, y)]. *)
Definition hole_lines (move_above_height z extrusion_amount
  retraction_amount : num) (h : hole) : list string :=
  let '(x, y) := h in
  [ "G0 X" +++ repr x +++ " Y" +++ repr y +++ " Z" +++ repr move_above_height
      +++ "F4200" +++ Py.nl;
    "G0 Z" +++ repr (fsub z (lit 5 2)) +++ "F4200" +++ Py.nl;
    "G1 E" +++ repr retraction_amount +++ " F4200" +++ Py.nl;
    "G1 E" +++ repr extrusion_amount +++ "F4200" +++ Py.nl;
    "G4 P1000" +++ Py.nl;
    "G1 E-" +++ repr retraction_amount +++ " F4200" +++ Py.nl;
    "G4 P1000" +++ Py.nl;
    "G0 X" +++ repr (fadd x (lit 1 0)) +++ " Y" +++ repr y +++ " F4200" +++ Py.nl;
    "G0 Z" +++ repr move_above_height +++ "F4200" +++ Py.nl ].

(** One iteration of [for x, y in holes]: the loop targets are the
    function's own variables [x] and [y], which every iteration rebinds.
    The state is ([gcode], [x], [y]). *)
Definition holes_body (move_above_height z extrusion_amount
  retraction_amount : num)
  (st : list string * option num * option num) (h : hole)
  : list string * option num * option num :=
  let '(gcode, _, _) := st in
  (gcode ++ hole_lines move_above_height z extrusion_amount
              retraction_amount h,
   Some (fst h), Some (snd h)).

Definition generate_gcode_for_holes (holes : list hole) (last_pos : pose)
  (extrusion_amount retraction_amount : num) : result (list string) :=
  let '(x, y, z) := last_pos in
  match z with
  | None => Raise TypeError          (* [5 + z] *)
  | Some z =>
      let move_above_height := fadd (lit 5 0) z in
      let gcode := [ "M104 S240" +++ Py.nl;
                     "G0 Z" +++ repr move_above_height +++ "F4200" +++ Py.nl ] in
      let '(gcode, x, y) :=
        fold_left (holes_body move_above_height z extrusion_amount
                     retraction_amount) holes (gcode, x, y) in
      Ok (gcode ++ [ "G0 X" +++ fmt x +++ " Y" +++ fmt y +++ " F4200" +++ Py.nl;
                     "G0 Z" +++ repr z +++ " F4200" +++ Py.nl;
                     "M104 S220" +++ Py.nl ])
  end.

(** The defaults [extrusion_amount=0.48] and [retraction_amount=7.5]. *)
Definition default_extrusion_amount : num := lit 48 2.
Definition default_retraction_amount : num := lit 75 1.

(** *** [main] *)

(** The comprehension that moves the holes by [centre_delta]. *)
Definition offset_holes (design_centre centre_delta : num * num)
  (holes : list hole) : list hole :=
  map (fun h : hole =>
         let '(x, y) := h in
         (round2 (fadd x (fst centre_delta)),
          round2 (fadd (fadd y (snd centre_delta))
                       (fmul (lit 2 0) (snd design_centre)))))
      holes.

(** [centre_delta], the offset between the two centres. *)
Definition centre_delta (design_centre gcode_centre : num * num)
  : num * num :=
  (fsub (fst gcode_centre) (fst design_centre),
   fsub (snd gcode_centre) (snd design_centre)).

(** The [if]/[elif] chain on [len(tool_changes)]. *)
Definition check_tool_changes (tool_changes : list (nat * string))
  : result unit :=
  if (length tool_changes <? 1)%nat then
    Raise (ValueError "No tool changes found in the input G-code file")
  else if (length tool_changes =? 1)%nat then
    Raise (ValueError "Only one tool change found in the input G-code file. At least two tools are required.")
  else if (2 <? length tool_changes)%nat then
    Raise (ValueError "More than two tool changes found in the input G-code file. Only two tool changes are supported at the moment.")
  else Ok tt.

(** [next((s for s in sections if s[0] == "Wipe tower" and s[1] > tool_change), None)] *)
Definition find_wipe_section (sections : list section) (tool_change : nat)
  : option section :=
  find (fun s : section =>
          String.eqb (sec_name s) "Wipe tower"
          && (tool_change <? sec_start s)%nat)
       sections.

(** The head/tail split and the reassembly, with the inserted lines as
    arguments: [main] inserts the two lines [pause_commands] one after the
    other at [tool_change + 1] and [tool_change + 2]. *)
Fixpoint insert_all (i : nat) (cmds : list string) (head : list string)
  : list string :=
  match cmds with
  | [] => head
  | c :: cmds' => insert_all (S i) cmds' (Py.insert i c head)
  end.

Definition splice (lines : list string) (tool_change insertion_point : nat)
  (pause fill : list string) : list string :=
  let head := firstn (insertion_point + 1) lines in
  let tail := skipn (insertion_point + 1) lines in
  let head := insert_all (tool_change + 1) pause head in
  head ++ fill ++ tail.

Definition pause_commands : list string := [ "M600" +++ Py.nl; "M400" +++ Py.nl ].

(** [main] from the two centres on.  The centres are what [find_svg_centre]
    and [find_gcode_objects_center] have returned (they rest on svgpathtools
    and on the json module); the latter returns only if a line of the stream
    holds the footprint metadata, so the stream is not empty by then.  The
    lists of lines are the contents of [args.in_gcode] and [args.drl].  The
    result is the list [write_gcode] writes. *)
Definition main_core (design_centre gcode_centre : num * num)
  (in_gcode drl : list string) : result (list string) :=
  let centre_delta := centre_delta design_centre gcode_centre in
  holes <- parse_drill_file drl "T1" ;;
  let holes := offset_holes design_centre centre_delta holes in
  sections <- get_gcode_sections in_gcode ;;
  let tool_changes := get_tool_changes in_gcode in
  _ <- check_tool_changes tool_changes ;;
  tc <- Py.index tool_changes 1 ;;
  let tool_change := fst tc in
  match find_wipe_section sections tool_change with
  | None =>
      Raise (ValueError "No wipe tower section found after the tool change")
  | Some wipe_section =>
      let insertion_point := sec_end wipe_section in
      let head := firstn (insertion_point + 1) in_gcode in
      last_coords <- get_last_coords head ;;
      hole_gcode <- generate_gcode_for_holes holes last_coords
                      default_extrusion_amount default_retraction_amount ;;
      Ok (splice in_gcode tool_change insertion_point pause_commands
            hole_gcode)
  end.

End Program.

(** ** Exact decimal arithmetic, an instance of [FloatOps]

    A number is [mant] * 10^-[expo], kept normalised (no trailing zero in
    the fraction), so equal numbers are equal records.  Sums, differences and
    products of decimals are decimals, so the arithmetic is exact; [round2]
    rounds half to even; [repr] prints positionally with at least one
    fractional digit, as Python does for floats between 1e-4 and 1e16;
    [of_string] reads an optionally signed decimal without exponent. *)

Module Dec.

Record dec : Type := mk { mant : Z; expo : nat }.

Fixpoint normalize (m : Z) (e : nat) : dec :=
  match e with
  | O => mk m O
  | S e' => if (m mod 10 =? 0)%Z then normalize (m / 10) e' else mk m e
  end.

Definition pow10 (k : nat) : Z := (10 ^ Z.of_nat k)%Z.

Definition add (a b : dec) : dec :=
  let e := Nat.max (expo a) (expo b) in
  normalize (mant a * pow10 (e - expo a) + mant b * pow10 (e - expo b))%Z e.

Definition sub (a b : dec) : dec :=
  let e := Nat.max (expo a) (expo b) in
  normalize (mant a * pow10 (e - expo a) - mant b * pow10 (e - expo b))%Z e.

Definition mul (a b : dec) : dec :=
  normalize (mant a * mant b)%Z (expo a + expo b).

Definition round2 (a : dec) : dec :=
  if (expo a <=? 2)%nat then a
  else
    let d := pow10 (expo a - 2) in
    let q := (mant a / d)%Z in
    let r := (mant a mod d)%Z in
    let q' := if (2 * r <? d)%Z then q
              else if (d <? 2 * r)%Z then (q + 1)%Z
              else if Z.even q then q else (q + 1)%Z in
    normalize q' 2.

Definition digits (n : Z) : string :=
  NilZero.string_of_uint (N.to_uint (Z.to_N n)).

Fixpoint zeros (k : nat) : string :=
  match k with
  | O => EmptyString
  | S k' => String "0" (zeros k')
  end.

Definition repr (a : dec) : string :=
  let m := Z.abs (mant a) in
  let sign := if (mant a <? 0)%Z then "-" else "" in
  let ip := digits (m / pow10 (expo a)) in
  let fp := match expo a with
            | O => "0"
            | S _ => let f := digits (m mod pow10 (expo a)) in
                     zeros (expo a - String.length f) +++ f
            end in
  sign +++ ip +++ "." +++ fp.

Definition digit_val (c : ascii) : option Z :=
  let n := nat_of_ascii c in
  if ((48 <=? n) && (n <=? 57))%nat then Some (Z.of_nat (n - 48)) else None.

(** The leading digits of [s]: their value, their number, and the rest. *)
Fixpoint read_digits (s : string) (acc : Z) (cnt : nat) : Z * nat * string :=
  match s with
  | EmptyString => (acc, cnt, EmptyString)
  | String c s' =>
      match digit_val c with
      | Some d => read_digits s' (10 * acc + d)%Z (S cnt)
      | None => (acc, cnt, s)
      end
  end.

Definition parse_unsigned (s : string) : option dec :=
  let '(ip, ni, rest) := read_digits s 0%Z O in
  match rest with
  | EmptyString => if (ni =? 0)%nat then None else Some (mk ip O)
  | String c rest' =>
      if Ascii.eqb c "." then
        let '(fp, nf, rest'') := read_digits rest' 0%Z O in
        match rest'' with
        | EmptyString =>
            if (ni + nf =? 0)%nat then None
            else Some (normalize (ip * pow10 nf + fp)%Z nf)
        | String _ _ => None
        end
      else None
  end.

Definition neg (a : dec) : dec := mk (- mant a)%Z (expo a).

Definition of_string (s : string) : option dec :=
  match Py.strip s with
  | String c s' =>
      if Ascii.eqb c "-" then option_map neg (parse_unsigned s')
      else if Ascii.eqb c "+" then parse_unsigned s'
      else parse_unsigned (String c s')
  | EmptyString => None
  end.

Definition ops : FloatOps :=
  Build_FloatOps dec normalize add sub mul round2 repr of_string.

(** The number [m] * 10^-[e]. *)
Definition d (m : Z) (e : nat) : @num ops := normalize m e.

End Dec.

(** ** Notions used to state the properties *)

Section Notions.

Context `{FloatOps}.

(** *** Drill records *)

(** A stripped line that selects a tool (a definition line carries a [C]). *)
Definition is_tool_select (record : string) : bool :=
  Py.startswith "T" record && negb (Py.contains "C" record).

(** A stripped line that is a coordinate record. *)
Definition is_coord (record : string) : bool :=
  Py.startswith "X" record && Py.contains "Y" record.

(** Each record with the tool that is active when the record is read. *)
Fixpoint active_tools (current : option string) (records : list string)
  : list (option string * string) :=
  match records with
  | [] => []
  | r :: rs =>
      let current' := if is_tool_select r then Some r else current in
      (current', r) :: active_tools current' rs
  end.

(** The hole a coordinate record stands for: the text between the leading
    [X] and the first [Y], and the text after that [Y] up to the next. *)
Definition hole_of_record (record : string) : result hole :=
  let parts := Py.split "Y" record in
  p0 <- Py.index parts 0 ;;
  y <- Py.index parts 1 ;;
  fx <- pyfloat (Py.drop1 p0) ;;
  fy <- pyfloat y ;;
  Ok (fx, fy).

(** The coordinate records whose active tool is [tool], in stream order. *)
Definition records_of_tool (tool : string) (drill_file : list string)
  : list string :=
  map snd
    (filter (fun p : option string * string =>
               is_coord (snd p) && tool_eqb (fst p) tool)
            (active_tools None (map Py.strip drill_file))).

Definition holes_of_tool (tool : string) (drill_file : list string)
  : result (list hole) :=
  mapM hole_of_record (records_of_tool tool drill_file).

(** *** Sections *)

Definition is_marker (line : string) : bool := Py.startswith ";TYPE:" line.

Definition marker_at (lines : list string) (j : nat) : bool :=
  match nth_error lines j with
  | Some line => is_marker line
  | None => false
  end.

(** The name a marker line gives to the section it opens. *)
Definition marker_name (line : string) : string :=
  Py.strip (nth 1 (Py.split ":" line) EmptyString).

(** The section list by recursion on the lines: [lines] are the lines from
    index [k] on, read while in the section [current] that started at line
    [start]; [last] is the end given to the final section. *)
Fixpoint sections_from (k : nat) (current : string) (start last : nat)
  (lines : list string) : list section :=
  match lines with
  | [] => [(current, start, last)]
  | line :: lines' =>
      if is_marker line
      then (current, start, k)
             :: sections_from (S k) (marker_name line) (S k) last lines'
      else sections_from (S k) current start last lines'
  end.

(** [lines] are the lines of [stream] from index [k] on. *)
Definition reads_from (stream : list string) (k : nat)
  (lines : list string) : Prop :=
  forall j, nth_error lines j = nth_error stream (k + j).

(** The pairs of neighbouring sections of a section list. *)
Definition neighbours (secs : list section) : list (section * section) :=
  combine secs (tl secs).

(** Line [j] belongs to a section read as the half-open range
    [start, end). *)
Definition in_section (j : nat) (s : section) : Prop :=
  sec_start s <= j < sec_end s.

(** *** Motion lines *)

Definition is_motion (line : string) : bool :=
  Py.startswith "G0" line || Py.startswith "G1" line.

(** A motion line with a Z word. *)
Definition carries_Z (line : string) : bool :=
  is_motion line && existsb (Py.startswith "Z") (Py.split_ws line).

Definition is_axis_word (part : string) : bool :=
  Py.startswith "X" part || Py.startswith "Y" part || Py.startswith "Z" part.

(** Every axis word of every motion line is accepted by [float()]. *)
Definition axis_words_parse (lines : list string) : Prop :=
  forall line part,
    In line lines -> is_motion line = true ->
    In part (Py.split_ws line) -> is_axis_word part = true ->
    float_of_string (Py.drop1 part) <> None.

(** *** The fill sequence *)

(** The values of the variables [x] and [y] after the loop over [holes]:
    those of the last hole, or the ones before the loop if there is none. *)
Definition xy_after_loop (holes : list hole) (x y : option num)
  : option num * option num :=
  last (map (fun h : hole => (Some (fst h), Some (snd h))) holes) (x, y).

(** *** The first wipe section after a tool change *)

Definition wipe_after (tool_change : nat) (s : section) : Prop :=
  sec_name s = "Wipe tower" /\ tool_change < sec_start s.

Definition first_wipe_after (secs : list section) (tool_change : nat)
  (s : section) : Prop :=
  exists before after,
    secs = before ++ s :: after /\ wipe_after tool_change s /\
    forall p, In p before -> ~ wipe_after tool_change p.

End Notions.

(** ** Example inputs *)

Module Examples.

Definition number (n : nat) : string := NilZero.string_of_uint (Nat.to_uint n).

(** A drill file with one hole at (2, 2) under tool T1. *)
Definition drill_one_hole : list string :=
  [ "T1" +++ Py.nl; "X2Y2" +++ Py.nl ].

(** The same hole, followed by a hole of tool T2. *)
Definition drill_two_tools : list string :=
  [ "T1" +++ Py.nl; "X2Y2" +++ Py.nl; "T2" +++ Py.nl; "X9Y9" +++ Py.nl ].

(** A stream of three lines with one phase marker. *)
Definition stream_one_marker : list string :=
  [ "G28" +++ Py.nl; ";TYPE:Perimeter" +++ Py.nl; "G1 X1 Y1" +++ Py.nl ].

(** Line [i] of a stream of 55 lines: tool changes at lines 10 and 40, the
    marker of a wipe tower section at line 44 (the section starts at line
    45), the next marker at line 50. *)
Definition stream_line (i : nat) : string :=
  (if (i =? 0)%nat then "G1 Z0.25"
   else if (i =? 10)%nat then "T0"
   else if (i =? 40)%nat then "T1"
   else if (i =? 44)%nat then ";TYPE:Wipe tower"
   else if (i =? 50)%nat then ";TYPE:Perimeter"
   else "G1 X" +++ number i +++ " Y0") +++ Py.nl.

Definition stream_10_40_45 : list string := map stream_line (seq 0 55).

(** A stream without tool changes, and streams with one and with three. *)
Definition stream_no_tool : list string := [ "G1 Z0.25" +++ Py.nl ].
Definition stream_one_tool : list string :=
  [ "G1 Z0.25" +++ Py.nl; "T0" +++ Py.nl ].
Definition stream_three_tools : list string :=
  [ "T0" +++ Py.nl; "T1" +++ Py.nl; "T0" +++ Py.nl ].

(** Two tool changes and no wipe tower section after the second. *)
Definition stream_no_wipe : list string :=
  [ "T0" +++ Py.nl; ";TYPE:Wipe tower" +++ Py.nl; "G1 Z0.25" +++ Py.nl;
    "T1" +++ Py.nl; ";TYPE:Perimeter" +++ Py.nl; "G1 X1 Y1" +++ Py.nl ].

(** A coordinate record before any tool select, and a hole drilled twice. *)
Definition drill_early_record : list string :=
  [ "X5Y5" +++ Py.nl; "T1" +++ Py.nl; "X2Y2" +++ Py.nl; "T2" +++ Py.nl;
    "X9Y9" +++ Py.nl; "T1" +++ Py.nl; "X2Y2" +++ Py.nl ].

(** A head without any Z word. *)
Definition head_no_Z : list string :=
  [ "G28" +++ Py.nl; "G1 X1 Y2 E0.5" +++ Py.nl ].

Definition design_centre : @num Dec.ops * @num Dec.ops :=
  (Dec.d 10 0, Dec.d 10 0).
Definition gcode_centre : @num Dec.ops * @num Dec.ops :=
  (Dec.d 15 0, Dec.d 12 0).

End Examples.

(** ** The geometry functions and the whole of [main] *)

(** What the geometry functions need beyond [FloatOps]: the order of the
    numbers, their division, and the json module. *)
Class GeometryOps `{FloatOps} : Type := {
  (** [a < b] *)
  flt : num -> num -> bool;
  (** [a / b] *)
  fdiv : num -> num -> num;
  (** The points that [json.loads(s)] holds, in the order in which the loops
      over ["objects"] and over each ["polygon"] meet them; [None] when
      [json.loads] raises or the value is not of that shape. *)
  polygon_points : string -> option (list (num * num))
}.

(** A failure of a run: an exception of [exn], or one that comes from the
    json module or from data that are not of the expected shape. *)
Inductive failure : Type :=
| Raised (e : exn)
| DataError.

Inductive outcome (A : Type) : Type :=
| Returns (a : A)
| Fails (f : failure).

Arguments Returns {A} a.
Arguments Fails {A} f.

Definition obind {A B : Type} (m : outcome A) (k : A -> outcome B)
  : outcome B :=
  match m with
  | Returns a => k a
  | Fails f => Fails f
  end.

Definition lift {A : Type} (m : result A) : outcome A :=
  match m with
  | Ok a => Returns a
  | Raise e => Fails (Raised e)
  end.

(** [needle in s] *)
Fixpoint str_in (needle s : string) : bool :=
  String.prefix needle s
  || match s with
     | EmptyString => false
     | String _ s' => str_in needle s'
     end.

(** [s.split(sep, 1)[1]]: what follows the first [sep]; [None] stands for the
    IndexError when there is no [sep]. *)
Fixpoint after_first (sep : ascii) (s : string) : option string :=
  match s with
  | EmptyString => None
  | String c s' => if Ascii.eqb c sep then Some s' else after_first sep s'
  end.

Section Geometry.

Context `{GeometryOps}.

(** (min_x, min_y, max_x, max_y), each [None] until the first point. *)
Definition bbox : Type := option num * option num * option num * option num.

Definition bbox_min_x (b : bbox) : option num := fst (fst (fst b)).
Definition bbox_min_y (b : bbox) : option num := snd (fst (fst b)).
Definition bbox_max_x (b : bbox) : option num := snd (fst b).
Definition bbox_max_y (b : bbox) : option num := snd b.

(** [v if m is None else min(m, v)], which is also what
    [if m is None or v < m: m = v] leaves in [m]. *)
Definition lower (m : option num) (v : num) : option num :=
  match m with
  | None => Some v
  | Some m => if flt v m then Some v else Some m
  end.

(** [v if m is None else max(m, v)], and [if m is None or v > m: m = v]. *)
Definition upper (m : option num) (v : num) : option num :=
  match m with
  | None => Some v
  | Some m => if flt m v then Some v else Some m
  end.

(** The centre of the box; [None + None] is a TypeError. *)
Definition centre_of (b : bbox) : result (num * num) :=
  let '(min_x, min_y, max_x, max_y) := b in
  match min_x, max_x with
  | Some a, Some c =>
      let centre_x := fdiv (fadd a c) (lit 2 0) in
      match min_y, max_y with
      | Some a', Some c' => Ok (centre_x, fdiv (fadd a' c') (lit 2 0))
      | _, _ => Raise TypeError
      end
  | _, _ => Raise TypeError
  end.

(** *** [find_svg_centre] *)

(** One path; [path.bbox()] is (xmin, xmax, ymin, ymax). *)
Definition svg_body (st : bbox) (path_bbox : num * num * num * num) : bbox :=
  let '(min_x, min_y, max_x, max_y) := st in
  let '(path_min_x, path_max_x, path_min_y, path_max_y) := path_bbox in
  (lower min_x path_min_x, lower min_y path_min_y,
   upper max_x path_max_x, upper max_y path_max_y).


(** *** [find_gcode_objects_center] *)

Definition point_body (st : bbox) (point : num * num) : bbox :=
  let '(min_x, min_y, max_x, max_y) := st in
  let '(x, y) := point in
  (lower min_x x, lower min_y y, upper max_x x, upper max_y y).

Definition objects_body (st : bbox) (line : string) : outcome bbox :=
  if str_in "objects_info" line then
    match after_first "=" line with
    | None => Fails (Raised IndexError)
    | Some json_str =>
        match polygon_points (Py.strip json_str) with
        | None => Fails DataError
        | Some points => Returns (fold_left point_body points st)
        end
    end
  else Returns st.

Fixpoint objects_loop (lines : list string) (st : bbox) : outcome bbox :=
  match lines with
  | [] => Returns st
  | line :: lines' => obind (objects_body st line) (objects_loop lines')
  end.

(** The box after the loop over the lines. *)
Definition objects_bbox (lines : list string) : outcome bbox :=
  objects_loop lines (None, None, None, None).

Definition find_gcode_objects_center (lines : list string)
  : outcome (num * num) :=
  obind (objects_bbox lines) (fun b => lift (centre_of b)).

(** *** [main], after [parse_args] *)


(** The points of the metadata lines of a stream, in reading order. *)
Fixpoint metadata_points (lines : list string) : list (num * num) :=
  match lines with
  | [] => []
  | line :: lines' =>
      (if str_in "objects_info" line then
         match after_first "=" line with
         | Some json_str =>
             match polygon_points (Py.strip json_str) with
             | Some points => points
             | None => []
             end
         | None => []
         end
       else [])
      ++ metadata_points lines'
  end.

(** [v] is not below [m] and not above [M]. *)
Definition between (m M : option num) (v : num) : Prop :=
  exists a c, m = Some a /\ M = Some c /\ flt v a = false /\ flt c v = false.

(** The bound [m] is set and [v] is not below it; the bound [M] is set and
    [v] is not above it. *)
Definition not_below (m : option num) (v : num) : Prop :=
  exists a, m = Some a /\ flt v a = false.

Definition not_above (M : option num) (v : num) : Prop :=
  exists c, M = Some c /\ flt c v = false.

(** A point is inside the box, in x and in y. *)
Definition inside (b : bbox) (p : num * num) : Prop :=
  between (bbox_min_x b) (bbox_max_x b) (fst p)
  /\ between (bbox_min_y b) (bbox_max_y b) (snd p).

(** The box after the loop of [find_svg_centre]. *)
Definition svg_bbox (paths : list (num * num * num * num)) : bbox :=
  fold_left svg_body paths (None, None, None, None).

(** [<] never holds between a number and itself, and is transitive. *)
Definition order_laws : Prop :=
  (forall a, flt a a = false)
  /\ (forall a b c, flt a b = true -> flt b c = true -> flt a c = true).

End Geometry.

(** ** Further notions *)

Section MoreNotions.

Context `{FloatOps}.

(** The dwell directive. *)
Definition dwell : string := "G4 P1000" +++ Py.nl.

Definition ends_with_newline (line : string) : Prop :=
  exists body, line = body +++ Py.nl.

(** The messages of the ValueErrors that [main] raises. *)
Definition main_messages : list string :=
  [ "No tool changes found in the input G-code file";
    "Only one tool change found in the input G-code file. At least two tools are required.";
    "More than two tool changes found in the input G-code file. Only two tool changes are supported at the moment.";
    "No wipe tower section found after the tool change" ].

(** The exceptions that [main], from the two centres on, lets through. *)
Definition main_core_raises (in_gcode : list string) (e : exn) : Prop :=
  (exists arg, e = FloatError arg)
  \/ e = TypeError
  \/ (e = UnboundLocalError /\ in_gcode = [])
  \/ (exists msg, e = ValueError msg /\ In msg main_messages).


End MoreNotions.

(** ** More example inputs *)

Module MoreExamples.

(** A drill file whose T1 record has an X word that [float()] rejects. *)
Definition drill_bad_number : list string :=
  [ "T1" +++ Py.nl; "XabcY2" +++ Py.nl ].

(** A line of the fill sequence followed by an ordinary motion line. *)
Definition head_glued_feed : list string :=
  [ "G1 X1 Y2" +++ Py.nl; "G0 Z5.25F4200" +++ Py.nl ].

(** A head whose z is set before lines that carry no Z word. *)
Definition head_z_first : list string := [ "G1 Z0.25" +++ Py.nl ].
Definition head_then_xy : list string :=
  [ "; comment" +++ Py.nl; "G1 X3 Y4 E1" +++ Py.nl ].

End MoreExamples.

(** ** The decimal instance of [GeometryOps], and a metadata line *)

Module DecGeometry.

Definition lt (a b : Dec.dec) : bool :=
  let e := Nat.max (Dec.expo a) (Dec.expo b) in
  (Dec.mant a * Dec.pow10 (e - Dec.expo a)
   <? Dec.mant b * Dec.pow10 (e - Dec.expo b))%Z.

(** The quotient, cut after 17 decimals (exact when it has no more). *)
Definition div (a b : Dec.dec) : Dec.dec :=
  Dec.normalize
    ((Dec.mant a * Dec.pow10 (Dec.expo b + 17))
     / (Dec.mant b * Dec.pow10 (Dec.expo a)))%Z 17.

Definition quote : string := String (ascii_of_nat 34) EmptyString.

(** The text [{"objects":[{"polygon":[[5,2],[25,2],[25,22],[5,22]]}]}]. *)
Definition square_json : string :=
  "{" +++ quote +++ "objects" +++ quote +++ ":[{" +++ quote +++ "polygon"
  +++ quote +++ ":[[5,2],[25,2],[25,22],[5,22]]}]}".

Definition square_points : list (@num Dec.ops * @num Dec.ops) :=
  [ (Dec.d 5 0, Dec.d 2 0); (Dec.d 25 0, Dec.d 2 0);
    (Dec.d 25 0, Dec.d 22 0); (Dec.d 5 0, Dec.d 22 0) ].

(** A stand-in for the json module that knows [square_json] only. *)
Definition decode (s : string) : option (list (@num Dec.ops * @num Dec.ops)) :=
  if String.eqb s square_json then Some square_points else None.

Definition ops : @GeometryOps Dec.ops :=
  @Build_GeometryOps Dec.ops lt div decode.

(** The metadata line of a stream whose only object is that square. *)
Definition metadata_line : string :=
  "; objects_info = " +++ square_json +++ Py.nl.

(** The stream of 55 lines with the metadata line in front. *)
Definition stream_with_metadata : list string :=
  metadata_line :: Examples.stream_10_40_45.

(** The bounding boxes (xmin, xmax, ymin, ymax) of two paths of a drawing
    whose centre is (10, 10). *)
Definition drawing : list (@num Dec.ops * @num Dec.ops
                           * @num Dec.ops * @num Dec.ops) :=
  [ (Dec.d 0 0, Dec.d 12 0, Dec.d 4 0, Dec.d 20 0);
    (Dec.d 3 0, Dec.d 20 0, Dec.d 0 0, Dec.d 9 0) ].

End DecGeometry.

(** ** Lists and results *)

Section ListFacts.

Context {A : Type}.

Lemma insert_within (i : nat) (a : A) (l : list A) :
  i <= length l ->
  firstn (S i) (Py.insert i a l) = firstn i l ++ [a] /\
  skipn (S i) (Py.insert i a l) = skipn i l.
Proof.
  intros Hi. unfold Py.insert.
  assert (Hlen : length (firstn i l) = i) by (rewrite length_firstn; lia).
  split.
  - rewrite firstn_app, Hlen.
    replace (S i - i) with 1 by lia.
    rewrite firstn_all2 by lia. reflexivity.
  - rewrite skipn_app, Hlen.
    replace (S i - i) with 1 by lia.
    rewrite skipn_all2 by lia. reflexivity.
Qed.

Lemma insert_beyond (i : nat) (a : A) (l : list A) :
  length l <= i -> Py.insert i a l = l ++ [a].
Proof.
  intros Hi. unfold Py.insert.
  rewrite firstn_all2, skipn_all2 by lia. reflexivity.
Qed.

Lemma last_cons_default (a d : A) (l : list A) :
  last (a :: l) d = last l a.
Proof.
  revert a d. induction l as [| b l IH]; intros a d; [reflexivity |].
  change (last (a :: b :: l) d) with (last (b :: l) d).
  rewrite (IH b d), (IH b a). reflexivity.
Qed.

End ListFacts.

Lemma bind_ok_inv {A B : Type} (m : result A) (k : A -> result B) (b : B) :
  bind m k = Ok b -> exists a, m = Ok a /\ k a = Ok b.
Proof.
  destruct m as [a | e]; simpl; intros Hb; [eauto | discriminate].
Qed.

Lemma foldM_app {St A : Type} (body : St -> A -> result St) (l1 l2 : list A)
  (s : St) :
  foldM body (l1 ++ l2) s = bind (foldM body l1 s) (foldM body l2).
Proof.
  revert s. induction l1 as [| a l1 IH]; intros s; simpl; [reflexivity |].
  destruct (body s a) as [s' | e]; simpl; [apply IH | reflexivity].
Qed.

(** ** Splicing *)

Lemma insert_all_spec (cmds head : list string) (i : nat) :
  insert_all i cmds head = firstn i head ++ cmds ++ skipn i head.
Proof.
  revert i head. induction cmds as [| c cmds IH]; intros i head; simpl.
  - symmetry. apply firstn_skipn.
  - rewrite IH. destruct (Nat.le_gt_cases i (length head)) as [Hle | Hgt].
    + destruct (insert_within i c head Hle) as [-> ->].
      rewrite <- app_assoc. reflexivity.
    + rewrite insert_beyond by lia.
      rewrite !firstn_all2, !skipn_all2
        by (rewrite ?length_app; simpl; lia).
      rewrite <- app_assoc. reflexivity.
Qed.

(** The two [head.insert] calls of [main] are [splice] at the two pause
    directives. *)
Lemma splice_two_inserts (lines fill : list string) (tool_change ip : nat)
  (a b : string) :
  splice lines tool_change ip [a; b] fill
  = Py.insert (tool_change + 2) b
      (Py.insert (tool_change + 1) a (firstn (ip + 1) lines))
    ++ fill ++ skipn (ip + 1) lines.
Proof.
  unfold splice. simpl.
  replace (S (tool_change + 1)) with (tool_change + 2) by lia. reflexivity.
Qed.

Lemma splice_spec (lines pause fill : list string) (tool_change ip : nat) :
  tool_change <= ip -> ip < length lines ->
  splice lines tool_change ip pause fill
  = firstn (tool_change + 1) lines ++ pause
    ++ firstn (ip - tool_change) (skipn (tool_change + 1) lines)
    ++ fill ++ skipn (ip + 1) lines.
Proof.
  intros Htc Hip. unfold splice. rewrite insert_all_spec.
  rewrite firstn_firstn, Nat.min_l by lia.
  rewrite skipn_firstn_comm.
  replace (ip + 1 - (tool_change + 1)) with (ip - tool_change) by lia.
  rewrite <- !app_assoc. reflexivity.
Qed.

(** C8. Splicing with no pause command and no fill command gives back the
    stream it was given, line for line, whatever the tool-change line and the
    insertion point are. *)
Theorem splice_nothing_is_identity (lines : list string)
  (tool_change insertion_point : nat) :
  splice lines tool_change insertion_point [] [] = lines.
Proof.
  unfold splice. simpl. apply firstn_skipn.
Qed.

(** ** The drill parser *)

Section DrillParser.

Context `{FloatOps}.

Lemma drill_body_spec (tool : string) (current : option string)
  (holes : list hole) (line : string) :
  let r := Py.strip line in
  let current' := if is_tool_select r then Some r else current in
  drill_body tool (current, holes) line
  = if is_coord r && tool_eqb current' tool
    then h <- hole_of_record r ;; Ok (current', holes ++ [h])
    else Ok (current', holes).
Proof.
  unfold drill_body, is_tool_select, is_coord, hole_of_record. simpl.
  destruct (Py.startswith "X" (Py.strip line) && Py.contains "Y" (Py.strip line)
            && tool_eqb _ tool); [| reflexivity].
  destruct (Py.index (Py.split "Y" (Py.strip line)) 0) as [p0 | e];
    [| reflexivity]; simpl.
  destruct (Py.index (Py.split "Y" (Py.strip line)) 1) as [y | e];
    [| reflexivity]; simpl.
  destruct (pyfloat (Py.drop1 p0)) as [fx | e]; [| reflexivity]; simpl.
  destruct (pyfloat y) as [fy | e]; reflexivity.
Qed.

(** The loop from any state: it appends to [holes] the holes of the
    selected records, or raises what the first bad record raises. *)
Lemma drill_loop_spec (tool : string) (lines : list string)
  (current : option string) (holes : list hole) :
  (st <- foldM (drill_body tool) lines (current, holes) ;; Ok (snd st))
  = (hs <- mapM hole_of_record
             (map snd
                (filter (fun p : option string * string =>
                           is_coord (snd p) && tool_eqb (fst p) tool)
                        (active_tools current (map Py.strip lines)))) ;;
     Ok (holes ++ hs)).
Proof.
  revert current holes.
  induction lines as [| line lines IH]; intros current holes.
  - simpl. rewrite app_nil_r. reflexivity.
  - cbn [foldM map active_tools filter].
    rewrite drill_body_spec. cbn zeta. cbn [fst snd].
    destruct (is_coord (Py.strip line)
              && tool_eqb (if is_tool_select (Py.strip line)
                           then Some (Py.strip line) else current) tool).
    + cbn [map mapM snd].
      destruct (hole_of_record (Py.strip line)) as [h | e];
        [| reflexivity].
      cbn [bind]. rewrite IH.
      destruct (mapM hole_of_record _) as [hs | e]; [| reflexivity].
      cbn [bind]. rewrite <- app_assoc. reflexivity.
    + cbn [bind]. apply IH.
Qed.

Lemma parse_drill_file_spec (tool : string) (drill_file : list string) :
  parse_drill_file drill_file tool = holes_of_tool tool drill_file.
Proof.
  unfold parse_drill_file, holes_of_tool, records_of_tool.
  rewrite drill_loop_spec.
  destruct (mapM hole_of_record _); reflexivity.
Qed.

(** While no tool has been selected, no record is attributed to a tool. *)
Lemma active_tools_before_select (tool : string) (records rest : list string) :
  (forall r, In r records -> is_tool_select r = false) ->
  filter (fun p : option string * string =>
            is_coord (snd p) && tool_eqb (fst p) tool)
         (active_tools None (records ++ rest))
  = filter (fun p : option string * string =>
              is_coord (snd p) && tool_eqb (fst p) tool)
           (active_tools None rest).
Proof.
  induction records as [| r records IH]; intros Hsel; [reflexivity |].
  cbn [app active_tools filter fst snd].
  rewrite (Hsel r) by (left; reflexivity).
  cbn [tool_eqb]. rewrite andb_false_r.
  apply IH. intros r' Hin. apply Hsel. right. exact Hin.
Qed.

(** C7. For every drill stream and every requested tool, the parser returns
    the holes of exactly those coordinate records whose active tool at that
    point of the stream is the requested one, in stream order and with
    repetitions kept (or raises what [float()] raises on the first of these
    records that is malformed); and coordinate records that come before any
    tool-select record contribute nothing, whatever the requested tool. *)
Theorem parse_drill_file_selects_active_tool (tool : string)
  (drill_file : list string) :
  parse_drill_file drill_file tool
  = mapM hole_of_record (records_of_tool tool drill_file)
  /\ forall before rest : list string,
      drill_file = before ++ rest ->
      (forall line, In line before -> is_tool_select (Py.strip line) = false) ->
      parse_drill_file drill_file tool = parse_drill_file rest tool.
Proof.
  split; [apply parse_drill_file_spec |].
  intros before rest -> Hsel.
  rewrite !parse_drill_file_spec. unfold holes_of_tool, records_of_tool.
  rewrite map_app, active_tools_before_select; [reflexivity |].
  intros r Hin. apply in_map_iff in Hin. destruct Hin as [line [<- Hin]].
  apply Hsel, Hin.
Qed.

End DrillParser.

(** ** The section indexer *)

Section Indexer.

Lemma split_second (c : ascii) (s : string) :
  Py.contains c s = true ->
  exists a b rest, Py.split c s = a :: b :: rest.
Proof.
  induction s as [| d s IH]; simpl; [discriminate |].
  intros Hc. rewrite Ascii.eqb_sym in Hc.
  destruct (Ascii.eqb d c) eqn:Hd.
  - destruct s as [| d' s']; simpl.
    + eauto.
    + destruct (Ascii.eqb d' c); [eauto |].
      destruct (Py.split c s'); eauto.
  - simpl in Hc. destruct (IH Hc) as [a [b [rest ->]]]. eauto.
Qed.

Lemma marker_has_colon (line : string) :
  is_marker line = true -> Py.contains ":" line = true.
Proof.
  unfold is_marker, Py.startswith. intros Hp.
  repeat (destruct line as [| ? line]; cbn [String.prefix] in Hp;
          try discriminate;
          match type of Hp with
          | context [ascii_dec ?a ?b] =>
              destruct (ascii_dec a b); [subst | discriminate]
          end).
  reflexivity.
Qed.

Lemma marker_name_spec (line : string) :
  is_marker line = true ->
  Py.index (Py.split ":" line) 1 = Ok (nth 1 (Py.split ":" line) EmptyString).
Proof.
  intros Hm. destruct (split_second _ _ (marker_has_colon _ Hm))
    as [a [b [rest ->]]]. reflexivity.
Qed.

Lemma sections_body_spec (st : sections_state) (i : nat) (line : string) :
  sections_body st (i, line)
  = Ok (if is_marker line
        then {| sections := sections st
                            ++ [(current_section st, current_start_line st, i)];
                current_section := marker_name line;
                current_start_line := i + 1;
                loop_i := Some i |}
        else {| sections := sections st;
                current_section := current_section st;
                current_start_line := current_start_line st;
                loop_i := Some i |}).
Proof.
  unfold sections_body. fold (is_marker line).
  destruct (is_marker line) eqn:Hm; [| reflexivity].
  rewrite (marker_name_spec _ Hm). reflexivity.
Qed.

(** The loop from line [k] on and from any state. *)
Lemma sections_loop_spec (lines : list string) (k : nat)
  (st : sections_state) :
  exists st',
    foldM sections_body (Py.enumerate_from k lines) st = Ok st' /\
    (forall last,
        sections st' ++ [(current_section st', current_start_line st', last)]
        = sections st
          ++ sections_from k (current_section st) (current_start_line st)
               last lines) /\
    loop_i st' = match lines with
                 | [] => loop_i st
                 | _ :: _ => Some (k + length lines - 1)
                 end.
Proof.
  revert k st. induction lines as [| line lines IH]; intros k st.
  - exists st. simpl. auto.
  - cbn [Py.enumerate_from foldM]. rewrite sections_body_spec. cbn [bind].
    match goal with
    | |- context [foldM _ _ ?s] => destruct (IH (S k) s) as [st' [Hf [Hs Hi]]]
    end.
    exists st'. split; [exact Hf |]. split.
    + intros last. rewrite Hs. cbn [sections_from].
      destruct (is_marker line); cbn [sections current_section
                                       current_start_line].
      * rewrite <- app_assoc. replace (k + 1) with (S k) by lia. reflexivity.
      * reflexivity.
    + rewrite Hi. destruct lines as [| l2 lines].
      * destruct (is_marker line); simpl; f_equal; lia.
      * simpl. f_equal. lia.
Qed.

Lemma get_gcode_sections_spec (lines : list string) :
  lines <> [] ->
  get_gcode_sections lines
  = Ok (sections_from 0 "Header" 0 (length lines - 1) lines).
Proof.
  intros Hne. unfold get_gcode_sections, Py.enumerate.
  match goal with
  | |- context [foldM _ _ ?s] =>
      destruct (sections_loop_spec lines 0 s) as [st' [-> [Hs Hi]]]
  end.
  cbn [bind]. rewrite Hi.
  destruct lines as [| line lines]; [contradiction |].
  rewrite Hs. reflexivity.
Qed.

Lemma get_gcode_sections_empty : get_gcode_sections [] = Raise UnboundLocalError.
Proof. reflexivity. Qed.

End Indexer.

(** ** The layout of the section list *)

Section SectionLayout.

(** The whole stream, of which [sections_from k] reads the lines from
    index [k] on. *)
Variable stream : list string.

Lemma reads_from_tail (k : nat) (line : string) (lines : list string) :
  reads_from stream k (line :: lines) ->
  nth_error stream k = Some line /\ reads_from stream (S k) lines.
Proof.
  intros Hr. split.
  - specialize (Hr 0). rewrite Nat.add_0_r in Hr. symmetry. exact Hr.
  - intros j. replace (S k + j) with (k + S j) by lia. apply (Hr (S j)).
Qed.

Lemma sections_from_head (lines : list string) (k : nat) (current : string)
  (start last : nat) :
  exists e rest,
    sections_from k current start last lines = (current, start, e) :: rest.
Proof.
  revert k current start. induction lines as [| line lines IH];
    intros k current start; simpl.
  - eauto.
  - destruct (is_marker line); [eauto | apply IH].
Qed.

Lemma sections_from_last (lines : list string) (k : nat) (current : string)
  (start last : nat) :
  exists init c s,
    sections_from k current start last lines = init ++ [(c, s, last)].
Proof.
  revert k current start. induction lines as [| line lines IH];
    intros k current start; simpl.
  - exists [], current, start. reflexivity.
  - destruct (is_marker line); [| apply IH].
    destruct (IH (S k) (marker_name line) (S k)) as [init [c [s ->]]].
    exists ((current, start, k) :: init), c, s. reflexivity.
Qed.

Lemma neighbours_cons (a b : section) (l : list section) :
  neighbours (a :: b :: l) = (a, b) :: neighbours (b :: l).
Proof. reflexivity. Qed.

Lemma sections_from_neighbours (lines : list string) (k : nat)
  (current : string) (start last : nat) :
  reads_from stream k lines -> start <= k ->
  forall a b,
    In (a, b) (neighbours (sections_from k current start last lines)) ->
    sec_start a < sec_start b /\ sec_start b = S (sec_end a)
    /\ marker_at stream (sec_end a) = true.
Proof.
  revert k current start. induction lines as [| line lines IH];
    intros k current start Hr Hle a b Hin; [destruct Hin |].
  destruct (reads_from_tail _ _ _ Hr) as [Hk Hr'].
  cbn [sections_from] in Hin. destruct (is_marker line) eqn:Hm.
  - destruct (sections_from_head lines (S k) (marker_name line) (S k) last)
      as [e [rest Heq]].
    rewrite Heq, neighbours_cons in Hin. destruct Hin as [Hab | Hin].
    + inversion Hab; subst a b. unfold sec_start, sec_end, marker_at. simpl.
      rewrite Hk. repeat split; [lia | exact Hm].
    + apply (IH (S k) (marker_name line) (S k)); auto.
      rewrite Heq. exact Hin.
  - apply (IH (S k) current start); auto.
Qed.

Lemma sections_from_markers (lines : list string) (k : nat)
  (current : string) (start last : nat) :
  reads_from stream k lines ->
  forall j, k <= j -> marker_at stream j = true ->
    exists a b,
      In (a, b) (neighbours (sections_from k current start last lines))
      /\ sec_end a = j /\ sec_start b = S j.
Proof.
  revert k current start. induction lines as [| line lines IH];
    intros k current start Hr j Hj Hm.
  - exfalso. unfold marker_at in Hm.
    replace j with (k + (j - k)) in Hm by lia.
    rewrite <- (Hr (j - k)) in Hm. destruct (j - k); discriminate.
  - destruct (reads_from_tail _ _ _ Hr) as [Hk Hr'].
    cbn [sections_from].
    destruct (Nat.eq_dec j k) as [-> | Hne].
    + unfold marker_at in Hm. rewrite Hk in Hm. rewrite Hm.
      destruct (sections_from_head lines (S k) (marker_name line) (S k) last)
        as [e [rest ->]].
      exists (current, start, k), (marker_name line, S k, e).
      rewrite neighbours_cons. split; [left; reflexivity | auto].
    + assert (Hj' : S k <= j) by lia.
      destruct (is_marker line).
      * destruct (IH (S k) (marker_name line) (S k) Hr' j Hj' Hm)
          as [a [b [Hin Hab]]].
        exists a, b. split; [| exact Hab].
        destruct (sections_from_head lines (S k) (marker_name line) (S k)
                    last) as [e [rest Heq]].
        rewrite Heq in Hin |- *. rewrite neighbours_cons. right. exact Hin.
      * apply (IH (S k) current start Hr' j Hj' Hm).
Qed.

Lemma sections_from_no_marker_inside (lines : list string) (k : nat)
  (current : string) (start last : nat) :
  reads_from stream k lines -> last <= k + length lines ->
  (forall j, start <= j < k -> marker_at stream j = false) ->
  forall s j,
    In s (sections_from k current start last lines) ->
    in_section j s -> marker_at stream j = false.
Proof.
  revert k current start. induction lines as [| line lines IH];
    intros k current start Hr Hlast Hinv s j Hin Hj.
  - destruct Hin as [<- | []]. unfold in_section, sec_start, sec_end in Hj.
    simpl in *. apply Hinv. lia.
  - destruct (reads_from_tail _ _ _ Hr) as [Hk Hr'].
    cbn [sections_from] in Hin. simpl in Hlast.
    destruct (is_marker line) eqn:Hm.
    + destruct Hin as [<- | Hin].
      * unfold in_section, sec_start, sec_end in Hj. simpl in Hj.
        apply Hinv. lia.
      * apply (IH (S k) (marker_name line) (S k)) with (s := s); auto;
          [lia | intros j' Hj'; lia].
    + apply (IH (S k) current start) with (s := s); auto; [lia |].
      intros j' Hj'. destruct (Nat.eq_dec j' k) as [-> | Hne].
      * unfold marker_at. rewrite Hk. exact Hm.
      * apply Hinv. lia.
Qed.

End SectionLayout.

(** C3, as the code has it. For every non-empty stream the indexer returns a
    section list; the first section starts at line 0; sections come in
    strictly increasing start order; the end line of a section is the index
    of a phase-marker line and the next section starts on the line after it
    (end + 1, not end); the end of the final section is the index of the last
    line of the stream; and every phase-marker line is the end of one section
    and precedes the start of the next, and lies in no section at all when a
    section is read as the half-open range from its start to its end. *)
Theorem get_gcode_sections_layout (lines : list string) :
  lines <> [] ->
  exists secs,
    get_gcode_sections lines = Ok secs
    /\ (exists first rest, secs = first :: rest /\ sec_start first = 0)
    /\ (exists init final,
          secs = init ++ [final] /\ sec_end final = length lines - 1)
    /\ (forall a b, In (a, b) (neighbours secs) ->
          sec_start a < sec_start b /\ sec_start b = S (sec_end a)
          /\ marker_at lines (sec_end a) = true)
    /\ (forall j, marker_at lines j = true ->
          (exists a b, In (a, b) (neighbours secs)
                       /\ sec_end a = j /\ sec_start b = S j)
          /\ forall s, In s secs -> ~ in_section j s).
Proof.
  intros Hne. rewrite (get_gcode_sections_spec lines Hne).
  eexists. split; [reflexivity |].
  assert (Hr : reads_from lines 0 lines) by (intros j; reflexivity).
  split; [| split; [| split]].
  - destruct (sections_from_head lines 0 "Header" 0 (length lines - 1))
      as [e [rest ->]]. eauto.
  - destruct (sections_from_last lines 0 "Header" 0 (length lines - 1))
      as [init [c [s ->]]]. eauto.
  - apply (sections_from_neighbours lines lines 0); auto.
  - intros j Hm. split.
    + apply (sections_from_markers lines lines 0); auto. lia.
    + intros s Hin Hj.
      assert (Hf : marker_at lines j = false).
      { apply (sections_from_no_marker_inside lines lines 0 "Header" 0
                 (length lines - 1)) with (s := s); auto; [lia |].
        intros j' Hj'. lia. }
      congruence.
Qed.

(** The layout at a stream of three lines whose second line is a marker. *)
Lemma get_gcode_sections_layout_witness :
  Examples.stream_one_marker <> []
  /\ exists secs,
      get_gcode_sections Examples.stream_one_marker = Ok secs
      /\ (exists first rest, secs = first :: rest /\ sec_start first = 0)
      /\ (exists init final,
            secs = init ++ [final]
            /\ sec_end final = length Examples.stream_one_marker - 1)
      /\ (forall a b, In (a, b) (neighbours secs) ->
            sec_start a < sec_start b /\ sec_start b = S (sec_end a)
            /\ marker_at Examples.stream_one_marker (sec_end a) = true)
      /\ (forall j, marker_at Examples.stream_one_marker j = true ->
            (exists a b, In (a, b) (neighbours secs)
                         /\ sec_end a = j /\ sec_start b = S j)
            /\ forall s, In s secs -> ~ in_section j s).
Proof.
  assert (Hne : Examples.stream_one_marker <> []) by discriminate.
  split; [exact Hne | apply (get_gcode_sections_layout _ Hne)].
Defined.

(** C3, as the claim words it, fails: in a stream of three lines whose second
    line is a marker the first section ends at line 1 and the second starts
    at line 2. *)
Lemma section_end_is_not_next_start :
  get_gcode_sections Examples.stream_one_marker
  = Ok [("Header", 0, 1); ("Perimeter", 2, 2)]
  /\ ~ (forall secs, get_gcode_sections Examples.stream_one_marker = Ok secs ->
        forall a b, In (a, b) (neighbours secs) -> sec_end a = sec_start b).
Proof.
  split; [reflexivity |].
  intros Hclaim.
  specialize (Hclaim _ eq_refl ("Header", 0, 1) ("Perimeter", 2, 2)).
  discriminate Hclaim. left. reflexivity.
Qed.

(** ** The last known pose *)

Section LastPose.

Context `{FloatOps}.

Lemma coords_part_z (x y z : option num) (part : string) :
  Py.startswith "Z" part = false ->
  forall p, coords_part (x, y, z) part = Ok p -> snd p = z.
Proof.
  intros HZ p. unfold coords_part. rewrite HZ.
  destruct (Py.startswith "X" part);
    [| destruct (Py.startswith "Y" part)];
    try (destruct (pyfloat (Py.drop1 part)); simpl; [| discriminate]);
    intros Hp; inversion Hp; reflexivity.
Qed.

Lemma coords_parts_z (parts : list string) :
  existsb (Py.startswith "Z") parts = false ->
  forall x y z p, foldM coords_part parts (x, y, z) = Ok p -> snd p = z.
Proof.
  induction parts as [| part parts IH]; intros HZ x y z p; simpl.
  - intros Hp. inversion Hp. reflexivity.
  - simpl in HZ. apply orb_false_elim in HZ. destruct HZ as [HZ HZs].
    intros Hp. apply bind_ok_inv in Hp. destruct Hp as [[[x' y'] z'] [H1 H2]].
    apply (coords_part_z _ _ _ _ HZ) in H1. simpl in H1. subst z'.
    apply (IH HZs _ _ _ _ H2).
Qed.

Lemma coords_line_z (line : string) :
  carries_Z line = false ->
  forall x y z p, coords_line (x, y, z) line = Ok p -> snd p = z.
Proof.
  unfold carries_Z, coords_line, is_motion. intros HZ x y z p.
  destruct (Py.startswith "G0" line || Py.startswith "G1" line).
  - apply coords_parts_z. exact HZ.
  - intros Hp. inversion Hp. reflexivity.
Qed.

Lemma coords_lines_z (lines : list string) :
  (forall line, In line lines -> carries_Z line = false) ->
  forall x y z p, foldM coords_line lines (x, y, z) = Ok p -> snd p = z.
Proof.
  induction lines as [| line lines IH]; intros HZ x y z p; simpl.
  - intros Hp. inversion Hp. reflexivity.
  - intros Hp. apply bind_ok_inv in Hp. destruct Hp as [[[x' y'] z'] [H1 H2]].
    apply coords_line_z in H1; [| apply HZ; left; reflexivity].
    simpl in H1. subst z'.
    apply (IH (fun l Hl => HZ l (or_intror Hl)) _ _ _ _ H2).
Qed.

(** The scan returns when [float()] accepts every axis word. *)
Lemma coords_part_total (st : pose) (part : string) :
  (is_axis_word part = true -> float_of_string (Py.drop1 part) <> None) ->
  exists p, coords_part st part = Ok p.
Proof.
  destruct st as [[x y] z]. unfold coords_part, is_axis_word, pyfloat.
  intros Hf.
  destruct (Py.startswith "X" part);
    [| destruct (Py.startswith "Y" part);
       [| destruct (Py.startswith "Z" part)]];
    try (destruct (float_of_string (Py.drop1 part));
         [simpl; eauto | exfalso; apply Hf; reflexivity]).
  eauto.
Qed.

Lemma coords_parts_total (parts : list string) :
  (forall part, In part parts -> is_axis_word part = true ->
                float_of_string (Py.drop1 part) <> None) ->
  forall st, exists p, foldM coords_part parts st = Ok p.
Proof.
  induction parts as [| part parts IH]; intros Hf st; simpl; [eauto |].
  destruct (coords_part_total st part (Hf part (or_introl eq_refl)))
    as [p ->]. simpl.
  apply IH. intros q Hq. apply Hf. right. exact Hq.
Qed.

Lemma get_last_coords_total_from (lines : list string) :
  axis_words_parse lines ->
  forall st, exists p, foldM coords_line lines st = Ok p.
Proof.
  induction lines as [| line lines IH]; intros Hf st; simpl; [eauto |].
  assert (Hline : exists p, coords_line st line = Ok p).
  { unfold coords_line. fold (is_motion line).
    destruct (is_motion line) eqn:Hm; [| eauto].
    apply coords_parts_total. intros part Hin Hax.
    apply (Hf line part); auto. left. reflexivity. }
  destruct Hline as [p ->]. simpl.
  apply IH. intros l q Hl. apply Hf. right. exact Hl.
Qed.

End LastPose.

(** ** The fill synthesizer *)

Section Synthesizer.

Context `{FloatOps}.

Lemma holes_loop_spec (m z e r : num) (holes : list hole)
  (gcode : list string) (x y : option num) :
  fold_left (holes_body m z e r) holes (gcode, x, y)
  = (gcode ++ flat_map (hole_lines m z e r) holes,
     fst (xy_after_loop holes x y), snd (xy_after_loop holes x y)).
Proof.
  revert gcode x y. induction holes as [| h holes IH]; intros gcode x y.
  - simpl. rewrite app_nil_r. reflexivity.
  - cbn [fold_left holes_body flat_map]. rewrite IH, <- app_assoc.
    unfold xy_after_loop. cbn [map].
    rewrite last_cons_default. reflexivity.
Qed.

(** The whole sequence, for an origin whose z is defined. *)
Lemma generate_gcode_for_holes_spec (holes : list hole)
  (x y : option num) (z e r : num) :
  generate_gcode_for_holes holes (x, y, Some z) e r
  = Ok ([ "M104 S240" +++ Py.nl;
          "G0 Z" +++ repr (fadd (lit 5 0) z) +++ "F4200" +++ Py.nl ]
        ++ flat_map (hole_lines (fadd (lit 5 0) z) z e r) holes
        ++ [ "G0 X" +++ fmt (fst (xy_after_loop holes x y))
               +++ " Y" +++ fmt (snd (xy_after_loop holes x y))
               +++ " F4200" +++ Py.nl;
             "G0 Z" +++ repr z +++ " F4200" +++ Py.nl;
             "M104 S220" +++ Py.nl ]).
Proof.
  unfold generate_gcode_for_holes. rewrite holes_loop_spec.
  rewrite <- app_assoc. reflexivity.
Qed.

(** After a non-empty loop the lateral return names the last hole, not the
    origin: the loop has rebound [x] and [y]. *)
Lemma generate_gcode_for_holes_returns_to_last_hole (holes : list hole)
  (hx hy : num) (x y : option num) (z e r : num) :
  exists body,
    generate_gcode_for_holes (holes ++ [(hx, hy)]) (x, y, Some z) e r
    = Ok (body ++ [ "G0 X" +++ repr hx +++ " Y" +++ repr hy
                      +++ " F4200" +++ Py.nl;
                    "G0 Z" +++ repr z +++ " F4200" +++ Py.nl;
                    "M104 S220" +++ Py.nl ]).
Proof.
  rewrite generate_gcode_for_holes_spec.
  unfold xy_after_loop. rewrite map_app. cbn [map].
  rewrite last_last. cbn [fst snd fmt].
  eexists. rewrite app_assoc. reflexivity.
Qed.

Lemma generate_gcode_for_holes_ok_iff (holes : list hole) (x y z : option num)
  (e r : num) :
  is_ok (generate_gcode_for_holes holes (x, y, z) e r) = true <-> z <> None.
Proof.
  destruct z as [z |].
  - rewrite generate_gcode_for_holes_spec. simpl.
    split; [discriminate | reflexivity].
  - simpl. split; [discriminate | intros Hz; contradiction].
Qed.

(** C10. When no motion line of the head carries a Z word, the z of the
    pose that [get_last_coords] returns is [None] (and it does return,
    with that z, when [float()] accepts the axis words of the head); the
    synthesizer then raises a TypeError at [5 + z] and produces no command
    sequence, for any holes and amounts; altogether the synthesizer
    returns a sequence exactly when the z of the origin is defined. *)
Theorem synthesis_requires_z (head : list string) :
  (forall line, In line head -> carries_Z line = false) ->
  (forall p, get_last_coords head = Ok p -> snd p = None)
  /\ (axis_words_parse head ->
      exists x y, get_last_coords head = Ok (x, y, None))
  /\ (forall holes x y e r,
        generate_gcode_for_holes holes (x, y, None) e r = Raise TypeError)
  /\ (forall holes e r,
        is_ok (p <- get_last_coords head ;;
               generate_gcode_for_holes holes p e r) = false)
  /\ (forall holes x y z e r,
        is_ok (generate_gcode_for_holes holes (x, y, z) e r) = true
        <-> z <> None).
Proof.
  intros HZ.
  assert (Hnone : forall p, get_last_coords head = Ok p -> snd p = None).
  { intros p Hp. apply (coords_lines_z head HZ None None None p Hp). }
  split; [exact Hnone |]. split; [| split; [| split]].
  - intros Hparse.
    destruct (get_last_coords_total_from head Hparse (None, None, None))
      as [[[x y] z] Hp].
    pose proof (Hnone _ Hp) as Hz. simpl in Hz. subst z.
    exists x, y. exact Hp.
  - reflexivity.
  - intros holes e r.
    destruct (get_last_coords head) as [[[x y] z] | err] eqn:Hp;
      [| reflexivity].
    pose proof (Hnone _ eq_refl) as Hz. simpl in Hz. subst z. reflexivity.
  - intros. apply generate_gcode_for_holes_ok_iff.
Qed.

End Synthesizer.

(** ** The pipeline of [main] *)

Section Pipeline.

Context `{FloatOps}.

Variables design_centre gcode_centre : num * num.

Lemma find_first {A : Type} (f : A -> bool) (l : list A) (a : A) :
  find f l = Some a ->
  exists before after,
    l = before ++ a :: after /\ f a = true
    /\ forall p, In p before -> f p = false.
Proof.
  induction l as [| b l IH]; simpl; [discriminate |].
  destruct (f b) eqn:Hb.
  - intros Ha. inversion Ha; subst b. exists [], l.
    repeat split; auto. intros p [].
  - intros Ha. destruct (IH Ha) as [before [after [-> [Hfa Hbefore]]]].
    exists (b :: before), after. repeat split; auto.
    intros p [<- | Hp]; auto.
Qed.

Lemma wipe_after_true (tool_change : nat) (s : section) :
  String.eqb (sec_name s) "Wipe tower" && (tool_change <? sec_start s)%nat
  = true <-> wipe_after tool_change s.
Proof.
  unfold wipe_after. rewrite andb_true_iff, String.eqb_eq, Nat.ltb_lt.
  reflexivity.
Qed.

Lemma find_wipe_section_some (secs : list section) (tool_change : nat)
  (ws : section) :
  find_wipe_section secs tool_change = Some ws ->
  first_wipe_after secs tool_change ws.
Proof.
  intros Hf. destruct (find_first _ _ _ Hf) as [before [after [-> [Hws Hb]]]].
  exists before, after. split; [reflexivity |].
  split; [apply wipe_after_true, Hws |].
  intros p Hp Hw. apply wipe_after_true in Hw.
  rewrite (Hb p Hp) in Hw. discriminate.
Qed.

Lemma find_wipe_section_none (secs : list section) (tool_change : nat) :
  find_wipe_section secs tool_change = None ->
  forall s, In s secs -> ~ wipe_after tool_change s.
Proof.
  intros Hf s Hs Hw. apply wipe_after_true in Hw.
  rewrite (find_none _ _ Hf s Hs) in Hw. discriminate.
Qed.

Lemma sections_from_bounds (lines : list string) (k : nat) (current : string)
  (start last : nat) :
  start <= k -> S last = k + length lines ->
  forall s, In s (sections_from k current start last lines) ->
    sec_start s <= S (sec_end s) /\ sec_end s <= last.
Proof.
  revert k current start. induction lines as [| line lines IH];
    intros k current start Hle Hlast s Hin; simpl in Hlast.
  - destruct Hin as [<- | []]. unfold sec_start, sec_end. simpl. lia.
  - cbn [sections_from] in Hin. destruct (is_marker line).
    + destruct Hin as [<- | Hin].
      * unfold sec_start, sec_end. simpl. lia.
      * apply (IH (S k) (marker_name line) (S k)); auto. lia.
    + apply (IH (S k) current start); auto; lia.
Qed.

(** A section of the indexer starts at most one line after its end, and
    ends inside the stream. *)
Lemma get_gcode_sections_bounds (lines : list string) (secs : list section) :
  get_gcode_sections lines = Ok secs ->
  forall s, In s secs ->
    sec_start s <= S (sec_end s) /\ sec_end s < length lines.
Proof.
  destruct lines as [| line lines]; [discriminate |].
  rewrite get_gcode_sections_spec by discriminate.
  intros Hs s Hin. inversion Hs; subst secs.
  destruct (sections_from_bounds (line :: lines) 0 "Header" 0
              (length (line :: lines) - 1)) with (s := s) as [H1 H2];
    simpl; auto; try lia.
  split; [exact H1 | simpl in H2 |- *; lia].
Qed.

Lemma tool_changes_need_lines (lines : list string) :
  get_tool_changes lines <> [] -> lines <> [].
Proof. intros Htc ->. apply Htc. reflexivity. Qed.

Lemma check_tool_changes_ok_iff (tool_changes : list (nat * string)) :
  check_tool_changes tool_changes = Ok tt <-> length tool_changes = 2.
Proof.
  unfold check_tool_changes.
  destruct tool_changes as [| t0 [| t1 [| t2 rest]]]; simpl;
    split; intros Hc; try discriminate; reflexivity.
Qed.

(** [main] after the validation, when the drill file has been read and
    exactly two tool changes were found. *)
Lemma main_core_two_tool_changes (lines drl : list string)
  (holes : list hole) (secs : list section) (t0 t1 : nat * string) :
  parse_drill_file drl "T1" = Ok holes ->
  get_gcode_sections lines = Ok secs ->
  get_tool_changes lines = [t0; t1] ->
  main_core design_centre gcode_centre lines drl
  = match find_wipe_section secs (fst t1) with
    | None =>
        Raise (ValueError "No wipe tower section found after the tool change")
    | Some ws =>
        pos <- get_last_coords (firstn (sec_end ws + 1) lines) ;;
        fill <- generate_gcode_for_holes
                  (offset_holes design_centre
                     (centre_delta design_centre gcode_centre) holes)
                  pos default_extrusion_amount default_retraction_amount ;;
        Ok (splice lines (fst t1) (sec_end ws) pause_commands fill)
    end.
Proof.
  intros Hd Hs Ht. unfold main_core. rewrite Hd, Hs, Ht. reflexivity.
Qed.

(** C5. Whenever the number of tool changes found is not two, [main]
    raises and nothing is written.  Once the steps that run before the
    validation have returned (the drill file is read; the stream is not
    empty, as it is whenever its footprint centre was found), the error is
    the ValueError of that count: one message for zero, one for one, one
    for more than two.  The validation passes exactly when the count is
    two, and [main] then goes on with the search for the wipe section. *)
Theorem tool_change_count_is_validated (lines drl : list string) :
  let n := length (get_tool_changes lines) in
  (n <> 2 -> is_ok (main_core design_centre gcode_centre lines drl) = false)
  /\ (forall holes,
        parse_drill_file drl "T1" = Ok holes -> lines <> [] ->
        (n = 0 ->
         main_core design_centre gcode_centre lines drl
         = Raise (ValueError "No tool changes found in the input G-code file"))
        /\ (n = 1 ->
            main_core design_centre gcode_centre lines drl
            = Raise (ValueError "Only one tool change found in the input G-code file. At least two tools are required."))
        /\ (2 < n ->
            main_core design_centre gcode_centre lines drl
            = Raise (ValueError "More than two tool changes found in the input G-code file. Only two tool changes are supported at the moment.")))
  /\ (check_tool_changes (get_tool_changes lines) = Ok tt <-> n = 2)
  /\ (forall holes,
        parse_drill_file drl "T1" = Ok holes -> n = 2 ->
        exists secs t0 t1,
          get_gcode_sections lines = Ok secs
          /\ get_tool_changes lines = [t0; t1]
          /\ main_core design_centre gcode_centre lines drl
             = match find_wipe_section secs (fst t1) with
               | None =>
                   Raise (ValueError "No wipe tower section found after the tool change")
               | Some ws =>
                   pos <- get_last_coords (firstn (sec_end ws + 1) lines) ;;
                   fill <- generate_gcode_for_holes
                             (offset_holes design_centre
                                (centre_delta design_centre gcode_centre)
                                holes)
                             pos default_extrusion_amount
                             default_retraction_amount ;;
                   Ok (splice lines (fst t1) (sec_end ws) pause_commands fill)
               end).
Proof.
  intros n. subst n. split; [| split; [| split]].
  - intros Hn. unfold main_core.
    destruct (parse_drill_file drl "T1") as [holes | e]; [| reflexivity].
    cbn [bind].
    destruct (get_gcode_sections lines) as [secs | e]; [| reflexivity].
    cbn [bind].
    destruct (check_tool_changes (get_tool_changes lines)) as [[] | e] eqn:Hc;
      [| reflexivity].
    apply check_tool_changes_ok_iff in Hc. contradiction.
  - intros holes Hd Hne. unfold main_core. rewrite Hd.
    rewrite (get_gcode_sections_spec lines Hne). cbn [bind].
    unfold check_tool_changes.
    destruct (get_tool_changes lines) as [| t0 [| t1 [| t2 rest]]];
      simpl; repeat split; intros Hn; try reflexivity; try discriminate; lia.
  - apply check_tool_changes_ok_iff.
  - intros holes Hd Hn.
    destruct (get_tool_changes lines) as [| t0 [| t1 [| t2 rest]]] eqn:Ht;
      try discriminate.
    assert (Hne : lines <> []).
    { apply tool_changes_need_lines. rewrite Ht. discriminate. }
    exists (sections_from 0 "Header" 0 (length lines - 1) lines), t0, t1.
    split; [apply get_gcode_sections_spec, Hne |].
    split; [reflexivity |].
    apply (main_core_two_tool_changes lines drl holes _ t0 t1); auto.
    apply get_gcode_sections_spec, Hne.
Qed.

(** C6. With exactly two tool changes (and the drill file read), the
    insertion point is the end line of the first section, in stream order,
    that is named "Wipe tower" and starts strictly after the line of the
    second tool change: the head is cut after that line and the fill
    sequence is generated from the pose at its end and spliced there.  If
    no section is such, [main] raises its ValueError and writes nothing. *)
Theorem insertion_point_is_end_of_first_wipe (lines drl : list string)
  (holes : list hole) (t0 t1 : nat * string) :
  get_tool_changes lines = [t0; t1] ->
  parse_drill_file drl "T1" = Ok holes ->
  exists secs,
    get_gcode_sections lines = Ok secs
    /\ ((exists ws,
           first_wipe_after secs (fst t1) ws
           /\ main_core design_centre gcode_centre lines drl
              = (pos <- get_last_coords (firstn (sec_end ws + 1) lines) ;;
                 fill <- generate_gcode_for_holes
                           (offset_holes design_centre
                              (centre_delta design_centre gcode_centre)
                              holes)
                           pos default_extrusion_amount
                           default_retraction_amount ;;
                 Ok (splice lines (fst t1) (sec_end ws) pause_commands fill)))
        \/ ((forall s, In s secs -> ~ wipe_after (fst t1) s)
            /\ main_core design_centre gcode_centre lines drl
               = Raise (ValueError "No wipe tower section found after the tool change"))).
Proof.
  intros Ht Hd.
  assert (Hne : lines <> []).
  { apply tool_changes_need_lines. rewrite Ht. discriminate. }
  pose proof (get_gcode_sections_spec lines Hne) as Hs.
  eexists. split; [exact Hs |].
  rewrite (main_core_two_tool_changes lines drl holes _ t0 t1 Hd Hs Ht).
  destruct (find_wipe_section _ (fst t1)) as [ws |] eqn:Hf.
  - left. exists ws. split; [apply find_wipe_section_some, Hf | reflexivity].
  - right. split; [apply find_wipe_section_none, Hf | reflexivity].
Qed.

End Pipeline.

(** ** The scenario with tool changes at lines 10 and 40 *)

Section Scenario.

Context `{FloatOps}.

Variables design_centre gcode_centre : num * num.

(** C2, as the code has it. In a stream whose two tool changes are at lines
    10 and 40 and whose wipe tower section starts at line 45 and ends at
    line [e], the output is: lines 0 to 40 of the stream, the two pause
    directives M600 and M400 (so the pause comes right after line 40, the
    second tool change, and not after line 10), lines 41 to [e], the fill
    sequence (right after the end line of the wipe section), and the
    lines after [e]; every line of the stream is there once, unchanged and
    in its order. *)
Theorem pause_follows_second_tool_change (lines drl : list string)
  (holes : list hole) (secs : list section) (a b : string) (e : nat)
  (x y : option num) (z : num) :
  get_tool_changes lines = [(10, a); (40, b)] ->
  get_gcode_sections lines = Ok secs ->
  find_wipe_section secs 40 = Some ("Wipe tower", 45, e) ->
  parse_drill_file drl "T1" = Ok holes ->
  get_last_coords (firstn (e + 1) lines) = Ok (x, y, Some z) ->
  exists fill out,
    generate_gcode_for_holes
      (offset_holes design_centre
         (centre_delta design_centre gcode_centre) holes)
      (x, y, Some z) default_extrusion_amount default_retraction_amount
    = Ok fill
    /\ main_core design_centre gcode_centre lines drl = Ok out
    /\ out = firstn 41 lines ++ pause_commands
             ++ firstn (e - 40) (skipn 41 lines)
             ++ fill ++ skipn (e + 1) lines
    /\ (forall i, i <= 40 -> nth_error out i = nth_error lines i)
    /\ nth_error out 41 = Some ("M600" +++ Py.nl)
    /\ nth_error out 42 = Some ("M400" +++ Py.nl).
Proof.
  intros Ht Hs Hf Hd Hp.
  rewrite (main_core_two_tool_changes design_centre gcode_centre lines drl
             holes secs (10, a) (40, b) Hd Hs Ht).
  cbn [fst]. rewrite Hf. unfold sec_end at 1 2. cbn [snd]. rewrite Hp.
  cbn [bind]. rewrite generate_gcode_for_holes_spec. cbn [bind].
  destruct (find_first _ _ _ Hf) as [before [after [Hsecs _]]].
  destruct (get_gcode_sections_bounds lines secs Hs ("Wipe tower", 45, e))
    as [Hstart Hend].
  { rewrite Hsecs. apply in_or_app. right. left. reflexivity. }
  unfold sec_start, sec_end in Hstart, Hend. simpl in Hstart, Hend.
  eexists. eexists. split; [reflexivity |]. split; [reflexivity |].
  assert (Hlen : length (firstn 41 lines) = 41)
    by (rewrite length_firstn; lia).
  split; [| split; [| split]].
  - rewrite splice_spec by (unfold sec_end; simpl; lia). reflexivity.
  - intros i Hi. rewrite splice_spec by (unfold sec_end; simpl; lia).
    cbn [Nat.add]. rewrite nth_error_app1 by lia.
    rewrite nth_error_firstn.
    destruct (Nat.ltb_spec i 41); [reflexivity | lia].
  - rewrite splice_spec by (unfold sec_end; simpl; lia).
    cbn [Nat.add]. rewrite nth_error_app2 by lia.
    rewrite Hlen. reflexivity.
  - rewrite splice_spec by (unfold sec_end; simpl; lia).
    cbn [Nat.add]. rewrite nth_error_app2 by lia.
    rewrite Hlen. reflexivity.
Qed.

(** C9. The holes that [main] moves and fills are those the drill parser
    returns for tool "T1": the output is the stream spliced with the fill
    sequence generated from them, and two drill files with the same T1
    holes give the same result, whatever they hold for other tools. *)
Theorem only_T1_holes_are_filled (lines drl : list string) :
  (forall out,
      main_core design_centre gcode_centre lines drl = Ok out ->
      exists holes tool_change insertion_point pos fill,
        parse_drill_file drl "T1" = Ok holes
        /\ generate_gcode_for_holes
             (offset_holes design_centre
                (centre_delta design_centre gcode_centre) holes)
             pos default_extrusion_amount default_retraction_amount
           = Ok fill
        /\ out = splice lines tool_change insertion_point pause_commands fill)
  /\ (forall drl',
        parse_drill_file drl' "T1" = parse_drill_file drl "T1" ->
        main_core design_centre gcode_centre lines drl'
        = main_core design_centre gcode_centre lines drl).
Proof.
  split.
  - intros out. unfold main_core.
    destruct (parse_drill_file drl "T1") as [holes | err]; [| discriminate].
    cbn [bind].
    destruct (get_gcode_sections lines) as [secs | err]; [| discriminate].
    cbn [bind].
    destruct (check_tool_changes _) as [[] | err]; [| discriminate].
    cbn [bind].
    destruct (Py.index _ 1) as [tc | err]; [| discriminate]. cbn [bind].
    destruct (find_wipe_section _ _) as [ws |]; [| discriminate].
    destruct (get_last_coords _) as [pos | err]; [| discriminate].
    cbn [bind].
    destruct (generate_gcode_for_holes _ pos _ _) as [fill | err] eqn:Hg;
      [| discriminate].
    cbn [bind]. intros Hout. inversion Hout.
    exists holes, (fst tc), (sec_end ws), pos, fill. auto.
  - intros drl' Heq. unfold main_core. rewrite Heq. reflexivity.
Qed.

End Scenario.

(** ** The examples, evaluated in exact decimal arithmetic *)

(** C1. With one hole at (1, 2) and the origin (10, 20, 0.25), the sequence
    returns vertically to the origin's z = 0.25, but its lateral return is
    [G0 X1.0 Y2.0], the hole, where the origin is at X10.0 Y20.0: the loop
    [for x, y in holes] has overwritten the origin's [x] and [y]. *)
Theorem lateral_return_goes_to_last_hole :
  let origin := (Some (Dec.d 10 0), Some (Dec.d 20 0), Some (Dec.d 25 2)) in
  let out :=
    [ "M104 S240" +++ Py.nl;
      "G0 Z5.25F4200" +++ Py.nl;
      "G0 X1.0 Y2.0 Z5.25F4200" +++ Py.nl;
      "G0 Z0.2F4200" +++ Py.nl;
      "G1 E7.5 F4200" +++ Py.nl;
      "G1 E0.48F4200" +++ Py.nl;
      "G4 P1000" +++ Py.nl;
      "G1 E-7.5 F4200" +++ Py.nl;
      "G4 P1000" +++ Py.nl;
      "G0 X2.0 Y2.0 F4200" +++ Py.nl;
      "G0 Z5.25F4200" +++ Py.nl;
      "G0 X1.0 Y2.0 F4200" +++ Py.nl;
      "G0 Z0.25 F4200" +++ Py.nl;
      "M104 S220" +++ Py.nl ] in
  generate_gcode_for_holes (H := Dec.ops) [(Dec.d 1 0, Dec.d 2 0)] origin
    default_extrusion_amount default_retraction_amount
  = Ok out
  /\ nth_error out 11 = Some ("G0 X1.0 Y2.0 F4200" +++ Py.nl)
  /\ nth_error out 11 <> Some ("G0 X10.0 Y20.0 F4200" +++ Py.nl)
  /\ nth_error out 12 = Some ("G0 Z0.25 F4200" +++ Py.nl).
Proof.
  cbv zeta. repeat split; try reflexivity. discriminate.
Qed.

(** C4. With the drawing centred at (10, 10), the footprints centred at
    (15, 12) and a drill file with one hole at (2, 2) under T1, the offset is
    (5, 2) and the hole moves to (2 + 5, 2 + 2 + 2 * 10) = (7, 24), which
    rounding to two decimals leaves as it is; the fill sequence prints it as
    X7.0 Y24.0. *)
Theorem translated_hole_is_7_24 :
  parse_drill_file (H := Dec.ops) Examples.drill_one_hole "T1"
  = Ok [(Dec.d 2 0, Dec.d 2 0)]
  /\ centre_delta (H := Dec.ops) Examples.design_centre Examples.gcode_centre
     = (Dec.d 5 0, Dec.d 2 0)
  /\ offset_holes (H := Dec.ops) Examples.design_centre
       (centre_delta (H := Dec.ops) Examples.design_centre
          Examples.gcode_centre)
       [(Dec.d 2 0, Dec.d 2 0)]
     = [(Dec.d 7 0, Dec.d 24 0)]
  /\ (Dec.repr (Dec.d 7 0), Dec.repr (Dec.d 24 0)) = ("7.0", "24.0").
Proof.
  repeat split; reflexivity.
Qed.

(** C2, as the claim words it, fails: in the stream of 55 lines with tool
    changes at lines 10 and 40 and the wipe tower section starting at line
    45, the line of the output after line 10 is line 11 of the stream; the
    pause directive comes after line 40. *)
Lemma pause_is_not_after_line_10 :
  map fst (get_tool_changes Examples.stream_10_40_45) = [10; 40]
  /\ get_gcode_sections Examples.stream_10_40_45
     = Ok [("Header", 0, 44); ("Wipe tower", 45, 50); ("Perimeter", 51, 54)]
  /\ exists out,
      main_core (H := Dec.ops) Examples.design_centre Examples.gcode_centre
        Examples.stream_10_40_45 Examples.drill_one_hole = Ok out
      /\ nth_error out 10 = Some ("T0" +++ Py.nl)
      /\ nth_error out 11 = Some ("G1 X11 Y0" +++ Py.nl)
      /\ nth_error out 11 <> Some ("M600" +++ Py.nl)
      /\ nth_error out 40 = Some ("T1" +++ Py.nl)
      /\ nth_error out 41 = Some ("M600" +++ Py.nl).
Proof.
  split; [reflexivity |]. split; [reflexivity |].
  eexists. split; [vm_compute; reflexivity |].
  repeat split; try reflexivity. discriminate.
Qed.

(** The scenario of C2 at the stream of 55 lines. *)
Lemma pause_follows_second_tool_change_witness :
  exists fill out,
    generate_gcode_for_holes (H := Dec.ops)
      (offset_holes Examples.design_centre
         (centre_delta Examples.design_centre Examples.gcode_centre)
         [(Dec.d 2 0, Dec.d 2 0)])
      (Some (Dec.d 49 0), Some (Dec.d 0 0), Some (Dec.d 25 2))
      default_extrusion_amount default_retraction_amount
    = Ok fill
    /\ main_core (H := Dec.ops) Examples.design_centre Examples.gcode_centre
         Examples.stream_10_40_45 Examples.drill_one_hole = Ok out
    /\ out = firstn 41 Examples.stream_10_40_45 ++ pause_commands
             ++ firstn (50 - 40) (skipn 41 Examples.stream_10_40_45)
             ++ fill ++ skipn (50 + 1) Examples.stream_10_40_45
    /\ (forall i, i <= 40 ->
                  nth_error out i = nth_error Examples.stream_10_40_45 i)
    /\ nth_error out 41 = Some ("M600" +++ Py.nl)
    /\ nth_error out 42 = Some ("M400" +++ Py.nl).
Proof.
  apply (pause_follows_second_tool_change (H := Dec.ops)
           Examples.design_centre Examples.gcode_centre
           Examples.stream_10_40_45 Examples.drill_one_hole
           [(Dec.d 2 0, Dec.d 2 0)]
           [("Header", 0, 44); ("Wipe tower", 45, 50); ("Perimeter", 51, 54)]
           "T0" "T1" 50 (Some (Dec.d 49 0)) (Some (Dec.d 0 0)) (Dec.d 25 2));
    vm_compute; reflexivity.
Defined.

(** The validation at streams with zero, one, three and two tool changes. *)
Lemma tool_change_count_is_validated_witness :
  main_core Examples.design_centre Examples.gcode_centre
    Examples.stream_no_tool Examples.drill_one_hole
  = Raise (ValueError "No tool changes found in the input G-code file")
  /\ main_core Examples.design_centre Examples.gcode_centre
       Examples.stream_one_tool Examples.drill_one_hole
     = Raise (ValueError "Only one tool change found in the input G-code file. At least two tools are required.")
  /\ main_core Examples.design_centre Examples.gcode_centre
       Examples.stream_three_tools Examples.drill_one_hole
     = Raise (ValueError "More than two tool changes found in the input G-code file. Only two tool changes are supported at the moment.")
  /\ is_ok (main_core Examples.design_centre Examples.gcode_centre
              Examples.stream_three_tools Examples.drill_one_hole) = false
  /\ check_tool_changes (get_tool_changes Examples.stream_10_40_45) = Ok tt.
Proof.
  pose proof (tool_change_count_is_validated Examples.design_centre
                Examples.gcode_centre Examples.stream_no_tool
                Examples.drill_one_hole) as [_ [H0 _]].
  pose proof (tool_change_count_is_validated Examples.design_centre
                Examples.gcode_centre Examples.stream_one_tool
                Examples.drill_one_hole) as [_ [H1 _]].
  pose proof (tool_change_count_is_validated Examples.design_centre
                Examples.gcode_centre Examples.stream_three_tools
                Examples.drill_one_hole) as [Hno [H3 _]].
  pose proof (tool_change_count_is_validated Examples.design_centre
                Examples.gcode_centre Examples.stream_10_40_45
                Examples.drill_one_hole) as [_ [_ [H2 _]]].
  split; [| split; [| split; [| split]]].
  - apply (H0 [(Dec.d 2 0, Dec.d 2 0)]);
      [reflexivity | discriminate | reflexivity].
  - apply (H1 [(Dec.d 2 0, Dec.d 2 0)]);
      [reflexivity | discriminate | reflexivity].
  - apply (H3 [(Dec.d 2 0, Dec.d 2 0)]);
      [reflexivity | discriminate | simpl; lia].
  - apply Hno. simpl. lia.
  - apply H2. reflexivity.
Defined.

(** The insertion point at the stream of 55 lines, and the fatal error at a
    stream whose only wipe tower section precedes the second tool change. *)
Lemma insertion_point_is_end_of_first_wipe_witness :
  (exists secs,
      get_gcode_sections Examples.stream_10_40_45 = Ok secs
      /\ ((exists ws,
             first_wipe_after secs 40 ws
             /\ main_core Examples.design_centre Examples.gcode_centre
                  Examples.stream_10_40_45 Examples.drill_one_hole
                = (pos <- get_last_coords
                            (firstn (sec_end ws + 1) Examples.stream_10_40_45) ;;
                   fill <- generate_gcode_for_holes
                             (offset_holes Examples.design_centre
                                (centre_delta Examples.design_centre
                                   Examples.gcode_centre)
                                [(Dec.d 2 0, Dec.d 2 0)])
                             pos default_extrusion_amount
                             default_retraction_amount ;;
                   Ok (splice Examples.stream_10_40_45 40 (sec_end ws)
                         pause_commands fill)))
          \/ ((forall s, In s secs -> ~ wipe_after 40 s)
              /\ main_core Examples.design_centre Examples.gcode_centre
                   Examples.stream_10_40_45 Examples.drill_one_hole
                 = Raise (ValueError "No wipe tower section found after the tool change"))))
  /\ main_core Examples.design_centre Examples.gcode_centre
       Examples.stream_no_wipe Examples.drill_one_hole
     = Raise (ValueError "No wipe tower section found after the tool change").
Proof.
  split.
  - apply (insertion_point_is_end_of_first_wipe Examples.design_centre
             Examples.gcode_centre Examples.stream_10_40_45
             Examples.drill_one_hole [(Dec.d 2 0, Dec.d 2 0)]
             (10, "T0") (40, "T1")); reflexivity.
  - reflexivity.
Defined.

(** The drill parser at a file whose first record is a coordinate record:
    that record is dropped, and the hole drilled twice by T1 comes twice. *)
Lemma parse_drill_file_selects_active_tool_witness :
  parse_drill_file (H := Dec.ops) Examples.drill_early_record "T1"
  = parse_drill_file (tl Examples.drill_early_record) "T1"
  /\ parse_drill_file (H := Dec.ops) Examples.drill_early_record "T1"
     = Ok [(Dec.d 2 0, Dec.d 2 0); (Dec.d 2 0, Dec.d 2 0)].
Proof.
  split; [| reflexivity].
  apply (proj2 (parse_drill_file_selects_active_tool (H := Dec.ops) "T1"
                  Examples.drill_early_record)
           [ "X5Y5" +++ Py.nl ] (tl Examples.drill_early_record)).
  - reflexivity.
  - intros line [<- | []]. reflexivity.
Defined.

(** Two drill files with the same T1 holes and different T2 holes. *)
Lemma only_T1_holes_are_filled_witness :
  parse_drill_file (H := Dec.ops) Examples.drill_two_tools "T1"
  = parse_drill_file Examples.drill_one_hole "T1"
  /\ main_core Examples.design_centre Examples.gcode_centre
       Examples.stream_10_40_45 Examples.drill_two_tools
     = main_core Examples.design_centre Examples.gcode_centre
         Examples.stream_10_40_45 Examples.drill_one_hole.
Proof.
  assert (Hd : parse_drill_file (H := Dec.ops) Examples.drill_two_tools "T1"
               = parse_drill_file Examples.drill_one_hole "T1")
    by reflexivity.
  split; [exact Hd |].
  apply (proj2 (only_T1_holes_are_filled Examples.design_centre
                  Examples.gcode_centre Examples.stream_10_40_45
                  Examples.drill_one_hole) Examples.drill_two_tools Hd).
Defined.

(** A head of two lines with an X and a Y word and no Z word. *)
Lemma synthesis_requires_z_witness :
  (forall line, In line Examples.head_no_Z -> carries_Z line = false)
  /\ get_last_coords (H := Dec.ops) Examples.head_no_Z
     = Ok (Some (Dec.d 1 0), Some (Dec.d 2 0), None)
  /\ forall holes e r,
      is_ok (p <- get_last_coords (H := Dec.ops) Examples.head_no_Z ;;
             generate_gcode_for_holes holes p e r) = false.
Proof.
  assert (HZ : forall line, In line Examples.head_no_Z -> carries_Z line = false).
  { intros line [<- | [<- | []]]; reflexivity. }
  split; [exact HZ |]. split; [reflexivity |].
  apply (synthesis_requires_z (H := Dec.ops) Examples.head_no_Z HZ).
Defined.


(** ** More on the fill synthesizer *)

Section SynthesizerShape.

Context `{FloatOps}.

Lemma hole_lines_length (m z e r : num) (h : hole) :
  length (hole_lines m z e r h) = 9.
Proof. destruct h. reflexivity. Qed.

Lemma flat_map_hole_lines_length (m z e r : num) (holes : list hole) :
  length (flat_map (hole_lines m z e r) holes) = 9 * length holes.
Proof.
  induction holes as [| h holes IH]; [reflexivity |].
  cbn [flat_map]. rewrite length_app, hole_lines_length, IH. simpl. lia.
Qed.

Lemma hole_lines_dwells (m z e r : num) (h : hole) :
  count_occ string_dec (hole_lines m z e r h) dwell = 2.
Proof.
  destruct h as [x y]. unfold hole_lines, dwell.
  repeat first
    [ rewrite count_occ_cons_eq by reflexivity
    | rewrite count_occ_cons_neq by (simpl; discriminate) ].
  reflexivity.
Qed.

Lemma flat_map_hole_lines_dwells (m z e r : num) (holes : list hole) :
  count_occ string_dec (flat_map (hole_lines m z e r) holes) dwell
  = 2 * length holes.
Proof.
  induction holes as [| h holes IH]; [reflexivity |].
  cbn [flat_map]. rewrite count_occ_app, hole_lines_dwells, IH. simpl. lia.
Qed.

(** The block of hole number [k] in the concatenation of the blocks. *)
Lemma flat_map_hole_lines_block (m z e r : num) (holes : list hole)
  (rest : list string) (k : nat) (h : hole) :
  nth_error holes k = Some h ->
  firstn 9 (skipn (9 * k) (flat_map (hole_lines m z e r) holes ++ rest))
  = hole_lines m z e r h.
Proof.
  revert k. induction holes as [| h' holes IH]; intros k Hk.
  - destruct k; discriminate.
  - cbn [flat_map]. rewrite <- app_assoc. destruct k as [| k].
    + simpl in Hk. inversion Hk; subst h'.
      rewrite Nat.mul_0_r. cbn [skipn].
      rewrite firstn_app, hole_lines_length, Nat.sub_diag.
      rewrite firstn_all2 by (rewrite hole_lines_length; lia).
      cbn [firstn]. apply app_nil_r.
    + replace (9 * S k) with (length (hole_lines m z e r h') + 9 * k)
        by (rewrite hole_lines_length; lia).
      rewrite skipn_app, skipn_all2 by lia.
      replace (length (hole_lines m z e r h') + 9 * k
               - length (hole_lines m z e r h')) with (9 * k) by lia.
      cbn [app]. apply IH. exact Hk.
Qed.

(** X1. For an origin with a defined z the synthesizer returns 5 + 9 * N
    lines for N holes: two opening lines, nine per hole, three closing
    lines. *)
Theorem fill_sequence_length (holes : list hole) (x y : option num)
  (z e r : num) :
  exists out,
    generate_gcode_for_holes holes (x, y, Some z) e r = Ok out
    /\ length out = 5 + 9 * length holes.
Proof.
  rewrite generate_gcode_for_holes_spec. eexists. split; [reflexivity |].
  rewrite !length_app, flat_map_hole_lines_length. simpl. lia.
Qed.

(** X2. The sequence for N holes holds the dwell directive [G4 P1000]
    exactly 2 * N times, whatever the numbers print as. *)
Theorem fill_sequence_dwells (holes : list hole) (x y : option num)
  (z e r : num) :
  exists out,
    generate_gcode_for_holes holes (x, y, Some z) e r = Ok out
    /\ count_occ string_dec out dwell = 2 * length holes.
Proof.
  rewrite generate_gcode_for_holes_spec. eexists. split; [reflexivity |].
  rewrite !count_occ_app, flat_map_hole_lines_dwells. unfold dwell.
  repeat first
    [ rewrite count_occ_cons_eq by reflexivity
    | rewrite count_occ_cons_neq by (simpl; discriminate) ].
  simpl. lia.
Qed.

(** X3. Every sequence opens by setting the temperature to 240 and rising
    to 5 + z, and closes by returning to the origin's z and setting the
    temperature to 220; with no hole at all, the only line in between is the
    lateral move to the origin's own x and y (printed as [None] when the
    origin has none). *)
Theorem fill_sequence_frame (holes : list hole) (x y : option num)
  (z e r : num) :
  (exists middle,
      generate_gcode_for_holes holes (x, y, Some z) e r
      = Ok ([ "M104 S240" +++ Py.nl;
              "G0 Z" +++ repr (fadd (lit 5 0) z) +++ "F4200" +++ Py.nl ]
            ++ middle
            ++ [ "G0 Z" +++ repr z +++ " F4200" +++ Py.nl;
                 "M104 S220" +++ Py.nl ]))
  /\ generate_gcode_for_holes [] (x, y, Some z) e r
     = Ok [ "M104 S240" +++ Py.nl;
            "G0 Z" +++ repr (fadd (lit 5 0) z) +++ "F4200" +++ Py.nl;
            "G0 X" +++ fmt x +++ " Y" +++ fmt y +++ " F4200" +++ Py.nl;
            "G0 Z" +++ repr z +++ " F4200" +++ Py.nl;
            "M104 S220" +++ Py.nl ].
Proof.
  split; [| reflexivity].
  rewrite generate_gcode_for_holes_spec.
  eexists (flat_map _ holes ++ [_]).
  rewrite <- !app_assoc. reflexivity.
Qed.

(** X4. The holes are served in the order of the list: lines 2 + 9 * k to
    10 + 9 * k of the sequence are the nine lines of hole number [k], with
    its own coordinates, the descent to z - 0.05 and the shift by one in x. *)
Theorem fill_sequence_serves_holes_in_order (holes : list hole)
  (x y : option num) (z e r : num) (k : nat) (h : hole) :
  nth_error holes k = Some h ->
  exists out,
    generate_gcode_for_holes holes (x, y, Some z) e r = Ok out
    /\ firstn 9 (skipn (2 + 9 * k) out)
       = hole_lines (fadd (lit 5 0) z) z e r h.
Proof.
  intros Hk. rewrite generate_gcode_for_holes_spec.
  eexists. split; [reflexivity |].
  cbn [app Nat.add skipn].
  apply flat_map_hole_lines_block. exact Hk.
Qed.

End SynthesizerShape.

(** The second of two holes, in exact decimal arithmetic. *)
Lemma fill_sequence_serves_holes_in_order_witness :
  exists out,
    generate_gcode_for_holes
      [(Dec.d 1 0, Dec.d 2 0); (Dec.d 3 0, Dec.d 4 0)]
      (Some (Dec.d 10 0), Some (Dec.d 20 0), Some (Dec.d 25 2))
      default_extrusion_amount default_retraction_amount
    = Ok out
    /\ firstn 9 (skipn (2 + 9 * 1) out)
       = hole_lines (fadd (lit 5 0) (Dec.d 25 2)) (Dec.d 25 2)
           default_extrusion_amount default_retraction_amount
           (Dec.d 3 0, Dec.d 4 0).
Proof.
  apply (fill_sequence_serves_holes_in_order (H := Dec.ops)
           [(Dec.d 1 0, Dec.d 2 0); (Dec.d 3 0, Dec.d 4 0)]).
  reflexivity.
Defined.

(** ** More on splicing *)

(** X5. Whatever the tool-change line and the insertion point are, the
    spliced list is the stream cut in three with the pause commands put
    between the first and the second part and the fill commands between the
    second and the third: no line of the stream is lost, changed or moved
    past another, and the length grows by the number of inserted lines. *)
Theorem splice_keeps_stream (lines pause fill : list string)
  (tool_change insertion_point : nat) :
  exists l1 l2 l3,
    lines = l1 ++ l2 ++ l3
    /\ splice lines tool_change insertion_point pause fill
       = l1 ++ pause ++ l2 ++ fill ++ l3
    /\ length (splice lines tool_change insertion_point pause fill)
       = length lines + length pause + length fill.
Proof.
  unfold splice. rewrite insert_all_spec.
  set (head := firstn (insertion_point + 1) lines).
  set (tail := skipn (insertion_point + 1) lines).
  exists (firstn (tool_change + 1) head), (skipn (tool_change + 1) head), tail.
  assert (Hlines : lines
                   = firstn (tool_change + 1) head
                     ++ skipn (tool_change + 1) head ++ tail).
  { rewrite app_assoc, firstn_skipn. symmetry. apply firstn_skipn. }
  split; [exact Hlines |]. split.
  - rewrite <- !app_assoc. reflexivity.
  - pose proof (f_equal (@length string) Hlines) as Hlen.
    rewrite !length_app in Hlen. rewrite !length_app. lia.
Qed.

(** ** More on the indexer *)

Section IndexerMore.

Lemma tool_changes_loop_texts (lines : list string) (k : nat) :
  map snd (tool_changes_loop (Py.enumerate_from k lines))
  = map Py.strip (filter (Py.startswith "T") lines).
Proof.
  revert k. induction lines as [| line lines IH]; intros k; [reflexivity |].
  cbn [Py.enumerate_from tool_changes_loop filter].
  destruct (Py.startswith "T" line); cbn [map snd]; rewrite IH; reflexivity.
Qed.

Lemma tool_changes_loop_in (lines : list string) (k i : nat) (t : string) :
  In (i, t) (tool_changes_loop (Py.enumerate_from k lines))
  <-> k <= i
      /\ exists line,
          nth_error lines (i - k) = Some line
          /\ Py.startswith "T" line = true /\ t = Py.strip line.
Proof.
  revert k. induction lines as [| line lines IH]; intros k.
  - simpl. split; [intros [] |].
    intros [_ [line [Hn _]]]. destruct (i - k); discriminate.
  - cbn [Py.enumerate_from tool_changes_loop].
    assert (Hrest :
              In (i, t) (tool_changes_loop (Py.enumerate_from (S k) lines))
              <-> S k <= i
                  /\ exists l, nth_error (line :: lines) (i - k) = Some l
                               /\ Py.startswith "T" l = true /\ t = Py.strip l).
    { rewrite IH. split; intros [Hle [l Hl]]; (split; [exact Hle |]);
        exists l; replace (i - k) with (S (i - S k)) in * by lia; exact Hl. }
    destruct (Py.startswith "T" line) eqn:HT.
    + cbn [In]. rewrite Hrest. split.
      * intros [Heq | [Hle Hl]].
        -- inversion Heq; subst i t. split; [lia |].
           exists line. rewrite Nat.sub_diag. auto.
        -- split; [lia | exact Hl].
      * intros [Hle [l [Hn [Hl Ht]]]].
        destruct (Nat.eq_dec i k) as [-> | Hne].
        -- left. rewrite Nat.sub_diag in Hn. simpl in Hn.
           inversion Hn; subst l t. reflexivity.
        -- right. split; [lia | eauto].
    + rewrite Hrest. split.
      * intros [Hle Hl]. split; [lia | exact Hl].
      * intros [Hle [l [Hn [Hl Ht]]]].
        destruct (Nat.eq_dec i k) as [-> | Hne].
        -- rewrite Nat.sub_diag in Hn. simpl in Hn.
           inversion Hn; subst l. congruence.
        -- split; [lia | eauto].
Qed.

Lemma tool_changes_loop_sorted (lines : list string) (k : nat) :
  StronglySorted lt (map fst (tool_changes_loop (Py.enumerate_from k lines))).
Proof.
  revert k. induction lines as [| line lines IH]; intros k; [constructor |].
  cbn [Py.enumerate_from tool_changes_loop].
  destruct (Py.startswith "T" line); [| apply IH].
  cbn [map fst]. constructor; [apply IH |].
  apply Forall_forall. intros i Hi. apply in_map_iff in Hi.
  destruct Hi as [[i' t] [<- Hin]]. apply tool_changes_loop_in in Hin.
  simpl. lia.
Qed.

(** X6. The tool changes are exactly the lines that start with [T]: each
    entry is the index of such a line with the stripped text of the line,
    every such line has its entry, and the entries come in increasing order
    of index, one per line. *)
Theorem tool_changes_are_the_T_lines (lines : list string) :
  map snd (get_tool_changes lines)
  = map Py.strip (filter (Py.startswith "T") lines)
  /\ (forall i t,
        In (i, t) (get_tool_changes lines)
        <-> exists line,
            nth_error lines i = Some line
            /\ Py.startswith "T" line = true /\ t = Py.strip line)
  /\ StronglySorted lt (map fst (get_tool_changes lines)).
Proof.
  unfold get_tool_changes, Py.enumerate.
  split; [apply tool_changes_loop_texts |].
  split; [| apply tool_changes_loop_sorted].
  intros i t. rewrite tool_changes_loop_in, Nat.sub_0_r.
  split; [intros [_ Hl]; exact Hl | intros Hl; split; [lia | exact Hl]].
Qed.

Lemma sections_from_names (lines : list string) (k : nat) (current : string)
  (start last : nat) :
  map sec_name (sections_from k current start last lines)
  = current :: map marker_name (filter is_marker lines).
Proof.
  revert k current start. induction lines as [| line lines IH];
    intros k current start; [reflexivity |].
  cbn [sections_from filter]. destruct (is_marker line).
  - cbn [map]. rewrite IH. reflexivity.
  - apply IH.
Qed.

(** X7. The indexer raises (its loop variable is unbound) on the empty
    stream and returns on every other stream: one section more than there
    are marker lines, the first named "Header" and the others named by the
    markers, in stream order. *)
Theorem sections_are_header_and_markers (line : string)
  (lines : list string) :
  get_gcode_sections [] = Raise UnboundLocalError
  /\ exists secs,
      get_gcode_sections (line :: lines) = Ok secs
      /\ length secs = S (length (filter is_marker (line :: lines)))
      /\ map sec_name secs
         = "Header" :: map marker_name (filter is_marker (line :: lines)).
Proof.
  split; [reflexivity |].
  rewrite get_gcode_sections_spec by discriminate.
  eexists. split; [reflexivity |].
  pose proof (sections_from_names (line :: lines) 0 "Header" 0
                (length (line :: lines) - 1)) as Hn.
  split; [| exact Hn].
  apply (f_equal (@length string)) in Hn.
  rewrite length_map in Hn. rewrite Hn. simpl. rewrite length_map.
  reflexivity.
Qed.

Lemma split_no_separator (c : ascii) (s : string) :
  Py.contains c s = false -> Py.split c s = [s].
Proof.
  induction s as [| d s IH]; [reflexivity |].
  simpl. rewrite Ascii.eqb_sym. intros Hc.
  apply orb_false_elim in Hc. destruct Hc as [Hd Hc].
  rewrite Hd, (IH Hc). reflexivity.
Qed.

Lemma split_at_separator (c : ascii) (a b : string) :
  Py.contains c a = false ->
  Py.split c (a +++ String c b) = a :: Py.split c b.
Proof.
  induction a as [| d a IH]; simpl.
  - intros _. rewrite Ascii.eqb_refl. reflexivity.
  - rewrite Ascii.eqb_sym. intros Hc.
    apply orb_false_elim in Hc. destruct Hc as [Hd Hc].
    rewrite Hd, (IH Hc). reflexivity.
Qed.

(** X8. The name a marker gives is the text after [;TYPE:] up to the next
    colon or, without one, up to the end of the line, stripped of white
    space at both ends (the line terminator included); what follows a
    second colon is dropped. *)
Theorem marker_name_is_text_up_to_colon (name : string) :
  Py.contains ":" name = false ->
  marker_name (";TYPE:" +++ name) = Py.strip name
  /\ forall rest,
      marker_name (";TYPE:" +++ name +++ String ":" rest) = Py.strip name.
Proof.
  intros Hc. unfold marker_name. split.
  - change (";TYPE:" +++ name) with (";TYPE" +++ String ":" name).
    rewrite split_at_separator by reflexivity.
    rewrite (split_no_separator _ _ Hc). reflexivity.
  - intros rest.
    change (";TYPE:" +++ name +++ String ":" rest)
      with (";TYPE" +++ String ":" (name +++ String ":" rest)).
    rewrite split_at_separator by reflexivity.
    rewrite (split_at_separator _ _ _ Hc). reflexivity.
Qed.

End IndexerMore.

(** The marker of a wipe tower section. *)
Lemma marker_name_is_text_up_to_colon_witness :
  marker_name (";TYPE:" +++ ("Wipe tower" +++ Py.nl)) = "Wipe tower"
  /\ marker_name (";TYPE:" +++ ("Wipe tower" +++ Py.nl) +++ String ":" "x")
     = "Wipe tower".
Proof.
  destruct (marker_name_is_text_up_to_colon ("Wipe tower" +++ Py.nl)
              eq_refl) as [H1 H2].
  split; [exact H1 | exact (H2 "x")].
Defined.

(** ** More on the drill parser *)

Section DrillParserMore.

Context `{FloatOps}.

(** A coordinate record holds a [Y], so both indexings succeed: only
    [float()] can raise. *)
Lemma hole_of_record_raises (record : string) (e : exn) :
  is_coord record = true ->
  hole_of_record record = Raise e -> exists arg, e = FloatError arg.
Proof.
  unfold is_coord, hole_of_record. intros Hc.
  apply andb_true_iff in Hc. destruct Hc as [_ HY].
  destruct (split_second _ _ HY) as [a [b [rest ->]]]. simpl.
  unfold pyfloat.
  destruct (float_of_string (Py.drop1 a)); simpl;
    [| intros He; inversion He; eauto].
  destruct (float_of_string b); simpl; intros He; inversion He; eauto.
Qed.

Lemma mapM_outcome {A B : Type} (f : A -> result B) (l : list A) :
  match mapM f l with
  | Ok bs => length bs = length l
  | Raise e => exists a, In a l /\ f a = Raise e
  end.
Proof.
  induction l as [| a l IH]; simpl; [reflexivity |].
  destruct (f a) as [b | e] eqn:Hb; simpl; [| eauto].
  destruct (mapM f l) as [bs | e]; simpl.
  - f_equal. exact IH.
  - destruct IH as [a' [Hin Ha']]. eauto.
Qed.

Lemma records_of_tool_are_coords (tool : string) (drl : list string)
  (record : string) :
  In record (records_of_tool tool drl) -> is_coord record = true.
Proof.
  unfold records_of_tool. intros Hin. apply in_map_iff in Hin.
  destruct Hin as [[t r] [<- Hin]]. apply filter_In in Hin.
  destruct Hin as [_ Hf]. apply andb_true_iff in Hf. apply Hf.
Qed.

(** X9. The drill parser either returns one hole per coordinate record of
    the requested tool, or raises the error of [float()] on one of these
    records; it raises nothing else (no IndexError), and records of other
    tools are never converted. *)
Theorem parse_drill_file_outcome (drl : list string) (tool : string) :
  match parse_drill_file drl tool with
  | Ok holes => length holes = length (records_of_tool tool drl)
  | Raise e =>
      exists record arg,
        In record (records_of_tool tool drl)
        /\ hole_of_record record = Raise e /\ e = FloatError arg
  end.
Proof.
  rewrite parse_drill_file_spec. unfold holes_of_tool.
  pose proof (mapM_outcome hole_of_record (records_of_tool tool drl)) as Hm.
  destruct (mapM hole_of_record _) as [holes | e]; [exact Hm |].
  destruct Hm as [record [Hin Hr]].
  destruct (hole_of_record_raises record e) as [arg Harg]; auto.
  - apply (records_of_tool_are_coords tool drl). exact Hin.
  - exists record, arg. auto.
Qed.

Lemma active_tools_origin (records : list string) (current t : option string)
  (r : string) :
  In (t, r) (active_tools current records) ->
  t = current \/ exists r', In r' records /\ t = Some r'.
Proof.
  revert current. induction records as [| r0 records IH]; intros current;
    [intros [] |].
  cbn [active_tools In]. intros [Heq | Hin].
  - inversion Heq; subst.
    destruct (is_tool_select r); [right; eauto | left; reflexivity].
  - destruct (IH _ Hin) as [-> | [r' [Hr' ->]]]; [| right; eauto].
    destruct (is_tool_select r0); [right; eauto | left; reflexivity].
Qed.

Lemma filter_none {A : Type} (f : A -> bool) (l : list A) :
  (forall a, In a l -> f a = false) -> filter f l = [].
Proof.
  induction l as [| a l IH]; intros Hf; [reflexivity |].
  simpl. rewrite (Hf a) by (left; reflexivity).
  apply IH. intros b Hb. apply Hf. right. exact Hb.
Qed.

(** X10. When no line of the drill file is, once stripped, the requested
    tool, the parser returns the empty list, and it does so without
    converting any number: malformed records cannot make it raise. *)
Theorem parse_drill_file_unselected_tool (drl : list string) (tool : string) :
  (forall line, In line drl -> Py.strip line <> tool) ->
  parse_drill_file drl tool = Ok [].
Proof.
  intros Hno. rewrite parse_drill_file_spec.
  unfold holes_of_tool, records_of_tool.
  rewrite filter_none; [reflexivity |].
  intros [t r] Hin. cbn [fst snd].
  replace (tool_eqb t tool) with false; [apply andb_false_r |].
  destruct (active_tools_origin _ _ _ _ Hin) as [-> | [r' [Hr' ->]]];
    [reflexivity |].
  apply in_map_iff in Hr'. destruct Hr' as [line [<- Hline]].
  simpl. symmetry. apply String.eqb_neq. apply Hno, Hline.
Qed.

End DrillParserMore.

(** A malformed T1 record: harmless when T2 is asked for. *)
Lemma parse_drill_file_unselected_tool_witness :
  parse_drill_file (H := Dec.ops) MoreExamples.drill_bad_number "T2" = Ok []
  /\ parse_drill_file (H := Dec.ops) MoreExamples.drill_bad_number "T1"
     = Raise (FloatError "abc").
Proof.
  split; [| reflexivity].
  apply (parse_drill_file_unselected_tool (H := Dec.ops)).
  intros line [<- | [<- | []]]; discriminate.
Defined.

(** ** More on the last known pose *)

Section LastPoseMore.

Context `{FloatOps}.

Lemma coords_lines_ignore_other_lines (lines : list string) (st : pose) :
  foldM coords_line lines st
  = foldM coords_line (filter is_motion lines) st.
Proof.
  revert st. induction lines as [| line lines IH]; intros st; [reflexivity |].
  cbn [filter foldM]. destruct (is_motion line) eqn:Hm.
  - cbn [foldM]. destruct (coords_line st line); simpl; [apply IH | reflexivity].
  - unfold coords_line at 1. fold (is_motion line). rewrite Hm. simpl.
    apply IH.
Qed.

(** X11. Only the lines that start with [G0] or [G1] count for the pose:
    scanning a head gives what scanning its motion lines alone gives, the
    same pose or the same error. *)
Theorem get_last_coords_ignores_other_lines (lines : list string) :
  get_last_coords lines = get_last_coords (filter is_motion lines).
Proof. apply coords_lines_ignore_other_lines. Qed.

Lemma coords_part_raises (st : pose) (part : string) (e : exn) :
  coords_part st part = Raise e ->
  is_axis_word part = true
  /\ float_of_string (Py.drop1 part) = None
  /\ e = FloatError (Py.drop1 part).
Proof.
  destruct st as [[x y] z]. unfold coords_part, is_axis_word, pyfloat.
  destruct (Py.startswith "X" part);
    [| destruct (Py.startswith "Y" part);
       [| destruct (Py.startswith "Z" part)]];
    simpl; try discriminate;
    destruct (float_of_string (Py.drop1 part)); simpl;
    intros He; inversion He; auto.
Qed.

Lemma coords_parts_raises (parts : list string) (st : pose) (e : exn) :
  foldM coords_part parts st = Raise e ->
  exists part,
    In part parts /\ is_axis_word part = true
    /\ float_of_string (Py.drop1 part) = None
    /\ e = FloatError (Py.drop1 part).
Proof.
  revert st. induction parts as [| part parts IH]; intros st; simpl;
    [discriminate |].
  destruct (coords_part st part) as [st' | e'] eqn:Hp; simpl.
  - intros He. destruct (IH _ He) as [q [Hq Hrest]]. eauto.
  - intros He. inversion He; subst e'.
    destruct (coords_part_raises _ _ _ Hp) as [H1 [H2 H3]]. eauto 6.
Qed.

Lemma coords_lines_raises (lines : list string) (st : pose) (e : exn) :
  foldM coords_line lines st = Raise e ->
  exists line part,
    In line lines /\ is_motion line = true
    /\ In part (Py.split_ws line) /\ is_axis_word part = true
    /\ float_of_string (Py.drop1 part) = None
    /\ e = FloatError (Py.drop1 part).
Proof.
  revert st.
  induction lines as [| line lines IH]; intros st; simpl; [discriminate |].
  destruct (coords_line st line) as [st' | e'] eqn:Hl; simpl.
  - intros He. destruct (IH _ He) as [l [p [Hin Hrest]]].
    exists l, p. split; [right; exact Hin | exact Hrest].
  - intros He. inversion He; subst e'.
    unfold coords_line in Hl. fold (is_motion line) in Hl.
    destruct (is_motion line) eqn:Hm; [| discriminate].
    destruct (coords_parts_raises _ _ _ Hl) as [p [Hp Hrest]].
    exists line, p. split; [left; reflexivity |]. split; [exact Hm |].
    split; [exact Hp | exact Hrest].
Qed.

(** X12. The scan of a head raises only the error of [float()], and only on
    the text after the axis letter of a word that starts with X, Y or Z in a
    line that starts with G0 or G1. *)
Theorem get_last_coords_raises_only_float (lines : list string) (e : exn) :
  get_last_coords lines = Raise e ->
  exists line part,
    In line lines /\ is_motion line = true
    /\ In part (Py.split_ws line) /\ is_axis_word part = true
    /\ float_of_string (Py.drop1 part) = None
    /\ e = FloatError (Py.drop1 part).
Proof. apply coords_lines_raises. Qed.

(** X13. An axis keeps its last value over the lines that do not name it:
    if the scan of a head gives z, the scan of that head followed by lines
    none of which is a motion line with a Z word gives the same z. *)
Theorem get_last_coords_keeps_z (head more : list string)
  (x y z : option num) :
  get_last_coords head = Ok (x, y, z) ->
  (forall line, In line more -> carries_Z line = false) ->
  forall p, get_last_coords (head ++ more) = Ok p -> snd p = z.
Proof.
  unfold get_last_coords. intros Hh HZ p. rewrite foldM_app, Hh. simpl.
  apply coords_lines_z. exact HZ.
Qed.

End LastPoseMore.

(** A line of the fill sequence has its feed rate glued to the Z word, which
    [float()] rejects. *)
Lemma get_last_coords_raises_only_float_witness :
  get_last_coords (H := Dec.ops) MoreExamples.head_glued_feed
  = Raise (FloatError "5.25F4200")
  /\ exists line part,
      In line MoreExamples.head_glued_feed /\ is_motion line = true
      /\ In part (Py.split_ws line) /\ is_axis_word part = true
      /\ float_of_string (FloatOps := Dec.ops) (Py.drop1 part) = None
      /\ FloatError "5.25F4200" = FloatError (Py.drop1 part).
Proof.
  assert (He : get_last_coords (H := Dec.ops) MoreExamples.head_glued_feed
               = Raise (FloatError "5.25F4200")) by reflexivity.
  split; [exact He |].
  apply (get_last_coords_raises_only_float (H := Dec.ops) _ _ He).
Defined.

(** The z set by the first line survives a comment and a move in x and y. *)
Lemma get_last_coords_keeps_z_witness :
  get_last_coords (H := Dec.ops)
    (MoreExamples.head_z_first ++ MoreExamples.head_then_xy)
  = Ok (Some (Dec.d 3 0), Some (Dec.d 4 0), Some (Dec.d 25 2))
  /\ snd (Some (Dec.d 3 0), Some (Dec.d 4 0), Some (Dec.d 25 2))
     = Some (Dec.d 25 2).
Proof.
  split; [reflexivity |].
  apply (get_last_coords_keeps_z (H := Dec.ops) MoreExamples.head_z_first
           MoreExamples.head_then_xy None None (Some (Dec.d 25 2))).
  - reflexivity.
  - intros line [<- | [<- | []]]; reflexivity.
  - reflexivity.
Defined.

(** ** More on the pipeline of [main] *)

Section PipelineMore.

Context `{FloatOps}.

Variables design_centre gcode_centre : num * num.

Lemma Forall_take {A : Type} (P : A -> Prop) (n : nat) (l : list A) :
  Forall P l -> Forall P (firstn n l).
Proof.
  intros Hl. revert n. induction Hl as [| a l Ha Hl IH]; intros [| n]; simpl;
    constructor; auto.
Qed.

Lemma Forall_drop {A : Type} (P : A -> Prop) (n : nat) (l : list A) :
  Forall P l -> Forall P (skipn n l).
Proof.
  intros Hl. revert n. induction Hl as [| a l Ha Hl IH]; intros [| n]; simpl;
    auto.
Qed.

Lemma append_assoc (a b c : string) : (a +++ b) +++ c = a +++ b +++ c.
Proof. induction a as [| d a IH]; simpl; [reflexivity | rewrite IH; reflexivity]. Qed.

Lemma ends_with_newline_append (a b : string) :
  ends_with_newline b -> ends_with_newline (a +++ b).
Proof.
  intros [body ->]. exists (a +++ body). symmetry. apply append_assoc.
Qed.

Lemma ends_with_newline_cons (c : ascii) (s : string) :
  ends_with_newline s -> ends_with_newline (String c s).
Proof. intros [body ->]. exists (String c body). reflexivity. Qed.

Ltac ends_nl :=
  repeat match goal with
         | |- ends_with_newline (String _ _) => apply ends_with_newline_cons
         | |- ends_with_newline (_ +++ _) => apply ends_with_newline_append
         end;
  exists EmptyString; reflexivity.

Lemma hole_lines_end_with_newline (m z e r : num) (h : hole) :
  Forall ends_with_newline (hole_lines m z e r h).
Proof.
  destruct h as [x y]. unfold hole_lines.
  repeat (constructor; [ends_nl |]). constructor.
Qed.

Lemma fill_ends_with_newline (holes : list hole) (pos : pose) (e r : num)
  (fill : list string) :
  generate_gcode_for_holes holes pos e r = Ok fill ->
  Forall ends_with_newline fill.
Proof.
  destruct pos as [[x y] [z |]]; [| discriminate].
  rewrite generate_gcode_for_holes_spec. intros [= <-].
  do 2 (constructor; [ends_nl |]). apply Forall_app. split.
  - apply Forall_flat_map, Forall_forall. intros h _.
    apply hole_lines_end_with_newline.
  - repeat (constructor; [ends_nl |]). constructor.
Qed.


(** What a successful run has gone through. *)
Lemma main_core_ok_inv (lines drl out : list string) :
  main_core design_centre gcode_centre lines drl = Ok out ->
  exists holes secs t0 t1 ws pos fill,
    parse_drill_file drl "T1" = Ok holes
    /\ get_gcode_sections lines = Ok secs
    /\ get_tool_changes lines = [t0; t1]
    /\ find_wipe_section secs (fst t1) = Some ws
    /\ get_last_coords (firstn (sec_end ws + 1) lines) = Ok pos
    /\ generate_gcode_for_holes
         (offset_holes design_centre
            (centre_delta design_centre gcode_centre) holes)
         pos default_extrusion_amount default_retraction_amount = Ok fill
    /\ out = splice lines (fst t1) (sec_end ws) pause_commands fill.
Proof.
  unfold main_core.
  destruct (parse_drill_file drl "T1") as [holes | err]; [| discriminate].
  cbn [bind].
  destruct (get_gcode_sections lines) as [secs | err]; [| discriminate].
  cbn [bind].
  destruct (check_tool_changes _) as [[] | err] eqn:Hc; [| discriminate].
  apply check_tool_changes_ok_iff in Hc.
  destruct (get_tool_changes lines) as [| t0 [| t1 [| t2 rest]]];
    try discriminate.
  cbn [bind Py.index nth_error].
  destruct (find_wipe_section _ _) as [ws |] eqn:Hw; [| discriminate].
  destruct (get_last_coords _) as [pos | err] eqn:Hp; [| discriminate].
  cbn [bind].
  destruct (generate_gcode_for_holes _ pos _ _) as [fill | err] eqn:Hg;
    [| discriminate].
  cbn [bind]. intros Hout. inversion Hout.
  exists holes, secs, t0, t1, ws, pos, fill. auto 10.
Qed.


(** X15. The output keeps every line on a line of its own: if each line of
    the stream ends with a newline, so does each line that [main] writes,
    the inserted ones included. *)
Theorem main_output_lines_end_with_newline (lines drl out : list string) :
  Forall ends_with_newline lines ->
  main_core design_centre gcode_centre lines drl = Ok out ->
  Forall ends_with_newline out.
Proof.
  intros Hnl Hout.
  destruct (main_core_ok_inv _ _ _ Hout)
    as [holes [secs [t0 [t1 [ws [pos [fill [_ [_ [_ [_ [_ [Hg ->]]]]]]]]]]]]].
  unfold splice. rewrite insert_all_spec.
  rewrite !Forall_app. repeat split.
  - apply Forall_take, Forall_take, Hnl.
  - unfold pause_commands. repeat (constructor; [ends_nl |]). constructor.
  - apply Forall_drop, Forall_take, Hnl.
  - apply (fill_ends_with_newline _ _ _ _ _ Hg).
  - apply Forall_drop, Hnl.
Qed.

Lemma parse_drill_file_raises (drl : list string) (tool : string) (e : exn) :
  parse_drill_file drl tool = Raise e -> exists arg, e = FloatError arg.
Proof.
  rewrite parse_drill_file_spec. unfold holes_of_tool.
  pose proof (mapM_outcome hole_of_record (records_of_tool tool drl)) as Hm.
  destruct (mapM hole_of_record _) as [holes | e']; [discriminate |].
  intros He. inversion He; subst e'. destruct Hm as [record [Hin Hr]].
  apply (hole_of_record_raises record e); auto.
  apply (records_of_tool_are_coords tool drl). exact Hin.
Qed.

Lemma main_core_raises_cases (lines drl : list string) (e : exn) :
  main_core design_centre gcode_centre lines drl = Raise e ->
  main_core_raises lines e.
Proof.
  unfold main_core, main_core_raises.
  destruct (parse_drill_file drl "T1") as [holes | err] eqn:Hd.
  2:{ cbn [bind]. intros He. inversion He; subst err.
      left. apply (parse_drill_file_raises _ _ _ Hd). }
  cbn [bind].
  destruct (get_gcode_sections lines) as [secs | err] eqn:Hs.
  2:{ cbn [bind]. intros He. inversion He; subst err.
      destruct lines as [| line lines].
      - right. right. left. split; [| reflexivity].
        rewrite get_gcode_sections_empty in Hs. inversion Hs. reflexivity.
      - rewrite get_gcode_sections_spec in Hs by discriminate. discriminate. }
  cbn [bind]. unfold check_tool_changes, main_messages.
  destruct (get_tool_changes lines) as [| t0 [| t1 [| t2 rest]]];
    cbn [length Nat.ltb Nat.leb Nat.eqb bind Py.index nth_error].
  - intros He. inversion He. right. right. right. eexists.
    split; [reflexivity | simpl; auto].
  - intros He. inversion He. right. right. right. eexists.
    split; [reflexivity | simpl; auto].
  - destruct (find_wipe_section _ _) as [ws |].
    + destruct (get_last_coords _) as [[[x y] z] | err] eqn:Hp.
      * cbn [bind]. destruct z as [z |].
        -- rewrite generate_gcode_for_holes_spec. discriminate.
        -- simpl. intros He. inversion He. right. left. reflexivity.
      * cbn [bind]. intros He. inversion He; subst err.
        destruct (coords_lines_raises _ _ _ Hp) as [l [p [_ [_ [_ [_ [_ ->]]]]]]].
        left. eauto.
    + intros He. inversion He. right. right. right. eexists.
      split; [reflexivity | simpl; auto 6].
  - intros He. inversion He. right. right. right. eexists.
    split; [reflexivity | simpl; auto].
Qed.

(** X16. From the two centres on, [main] lets through only: the error of
    [float()] (from a T1 drill record or from an axis word of the head), the
    TypeError of a head without z, the unbound loop variable of the indexer,
    and that on the empty stream only, and its own four ValueErrors.  It
    never raises an IndexError: the second tool change is read only after
    the count has been checked. *)
Theorem main_core_raises_only (lines drl : list string) (e : exn) :
  main_core design_centre gcode_centre lines drl = Raise e ->
  main_core_raises lines e.
Proof. apply main_core_raises_cases. Qed.

End PipelineMore.


(** The stream of 55 lines has a newline at the end of every line. *)
Lemma main_output_lines_end_with_newline_witness :
  Forall ends_with_newline Examples.stream_10_40_45
  /\ exists out,
      main_core Examples.design_centre Examples.gcode_centre
        Examples.stream_10_40_45 Examples.drill_one_hole = Ok out
      /\ Forall ends_with_newline out.
Proof.
  assert (Hnl : Forall ends_with_newline Examples.stream_10_40_45).
  { apply Forall_forall. intros line Hin.
    unfold Examples.stream_10_40_45 in Hin. apply in_map_iff in Hin.
    destruct Hin as [i [<- _]]. unfold Examples.stream_line.
    eexists. reflexivity. }
  split; [exact Hnl |].
  assert (Hrun : exists out,
             main_core Examples.design_centre Examples.gcode_centre
               Examples.stream_10_40_45 Examples.drill_one_hole = Ok out)
    by (eexists; vm_compute; reflexivity).
  destruct Hrun as [out Hout].
  exists out. split; [exact Hout |].
  apply (main_output_lines_end_with_newline Examples.design_centre
           Examples.gcode_centre _ _ _ Hnl Hout).
Defined.

(** The four kinds of error, each at an input that raises it. *)
Lemma main_core_raises_only_witness :
  main_core_raises (@nil string) UnboundLocalError
  /\ main_core_raises Examples.stream_no_wipe
       (ValueError "No wipe tower section found after the tool change")
  /\ main_core_raises Examples.stream_10_40_45 (FloatError "abc").
Proof.
  split; [| split].
  - apply (main_core_raises_only (H := Dec.ops) Examples.design_centre
             Examples.gcode_centre [] Examples.drill_one_hole).
    reflexivity.
  - apply (main_core_raises_only (H := Dec.ops) Examples.design_centre
             Examples.gcode_centre Examples.stream_no_wipe
             Examples.drill_one_hole).
    reflexivity.
  - apply (main_core_raises_only (H := Dec.ops) Examples.design_centre
             Examples.gcode_centre Examples.stream_10_40_45
             MoreExamples.drill_bad_number).
    reflexivity.
Defined.

(** ** The geometry functions *)

Section GeometryFacts.

Context `{GeometryOps}.

Lemma lower_below (m : option num) (v q : num) :
  order_laws -> not_below m q -> not_below (lower m v) q.
Proof.
  intros [_ Htrans] [a [-> Hq]]. unfold lower.
  destruct (flt v a) eqn:Hv; [| exists a; auto].
  exists v. split; [reflexivity |].
  destruct (flt q v) eqn:Hqv; [| reflexivity].
  rewrite (Htrans _ _ _ Hqv Hv) in Hq. discriminate.
Qed.

Lemma lower_self (m : option num) (v : num) :
  order_laws -> not_below (lower m v) v.
Proof.
  intros [Hirr _]. unfold lower. destruct m as [a |]; [| exists v; auto].
  destruct (flt v a) eqn:Hv; [exists v | exists a]; auto.
Qed.

Lemma upper_above (M : option num) (v q : num) :
  order_laws -> not_above M q -> not_above (upper M v) q.
Proof.
  intros [_ Htrans] [c [-> Hq]]. unfold upper.
  destruct (flt c v) eqn:Hv; [| exists c; auto].
  exists v. split; [reflexivity |].
  destruct (flt v q) eqn:Hvq; [| reflexivity].
  rewrite (Htrans _ _ _ Hv Hvq) in Hq. discriminate.
Qed.

Lemma upper_self (M : option num) (v : num) :
  order_laws -> not_above (upper M v) v.
Proof.
  intros [Hirr _]. unfold upper. destruct M as [c |]; [| exists v; auto].
  destruct (flt c v) eqn:Hv; [exists v | exists c]; auto.
Qed.

Lemma between_split (m M : option num) (v : num) :
  between m M v <-> not_below m v /\ not_above M v.
Proof.
  unfold between, not_below, not_above. split.
  - intros [a [c [-> [-> [H1 H2]]]]]. split; [exists a | exists c]; auto.
  - intros [[a [-> H1]] [c [-> H2]]]. exists a, c. auto.
Qed.

Lemma point_body_inside (b : bbox) (q p : num * num) :
  order_laws -> inside b p -> inside (point_body b q) p.
Proof.
  intros Hlaws. destruct b as [[[mx my] Mx] My]. destruct q as [x y].
  unfold inside, bbox_min_x, bbox_max_x, bbox_min_y, bbox_max_y. simpl.
  rewrite !between_split. intros [[H1 H2] [H3 H4]].
  auto using lower_below, upper_above.
Qed.

Lemma point_body_self (b : bbox) (q : num * num) :
  order_laws -> inside (point_body b q) q.
Proof.
  intros Hlaws. destruct b as [[[mx my] Mx] My]. destruct q as [x y].
  unfold inside, bbox_min_x, bbox_max_x, bbox_min_y, bbox_max_y. simpl.
  rewrite !between_split. auto using lower_self, upper_self.
Qed.

Lemma points_loop_inside (points : list (num * num)) (b : bbox)
  (seen : num * num -> Prop) :
  order_laws ->
  (forall p, seen p -> inside b p) ->
  forall p, seen p \/ In p points ->
            inside (fold_left point_body points b) p.
Proof.
  intros Hlaws. revert b seen.
  induction points as [| q points IH]; intros b seen Hseen p Hp.
  - destruct Hp as [Hp | []]. apply Hseen, Hp.
  - cbn [fold_left].
    apply (IH (point_body b q) (fun p => seen p \/ p = q)).
    + intros p' [Hp' | ->].
      * apply point_body_inside; auto.
      * apply point_body_self; auto.
    + destruct Hp as [Hp | [Hp | Hp]]; auto.
Qed.

Lemma objects_loop_points (lines : list string) (st b : bbox) :
  objects_loop lines st = Returns b ->
  b = fold_left point_body (metadata_points lines) st.
Proof.
  revert st. induction lines as [| line lines IH]; intros st.
  - simpl. intros Hb. inversion Hb. reflexivity.
  - cbn [objects_loop metadata_points]. unfold objects_body.
    destruct (str_in "objects_info" line); [| apply IH].
    destruct (after_first "=" line) as [json_str |]; [| discriminate].
    destruct (polygon_points (Py.strip json_str)) as [points |];
      [| discriminate].
    cbn [obind]. rewrite fold_left_app. apply IH.
Qed.

(** X17. When [<] is irreflexive and transitive (as it is on floats), the
    box that [find_gcode_objects_center] builds encloses every point of
    every metadata line of the stream: its bounds are set, no point is below
    min_x or min_y and none is above max_x or max_y. *)
Theorem objects_bbox_encloses_points (lines : list string) (b : bbox) :
  order_laws ->
  objects_bbox lines = Returns b ->
  forall p, In p (metadata_points lines) ->
    between (bbox_min_x b) (bbox_max_x b) (fst p)
    /\ between (bbox_min_y b) (bbox_max_y b) (snd p).
Proof.
  intros Hlaws Hb p Hp. apply objects_loop_points in Hb. subst b.
  apply (points_loop_inside _ _ (fun _ => False)); auto.
  intros p' [].
Qed.

Lemma objects_loop_no_metadata (lines : list string) (st : bbox) :
  (forall line, In line lines -> str_in "objects_info" line = false) ->
  objects_loop lines st = Returns st.
Proof.
  induction lines as [| line lines IH]; intros Hno; [reflexivity |].
  cbn [objects_loop]. unfold objects_body.
  rewrite (Hno line) by (left; reflexivity). cbn [obind].
  apply IH. intros l Hl. apply Hno. right. exact Hl.
Qed.

(** X18. A stream without a line that holds the text [objects_info] (the
    empty stream among them) makes [find_gcode_objects_center] raise a
    TypeError: the bounds are still [None] when they are added. *)
Theorem objects_center_needs_metadata (lines : list string) :
  (forall line, In line lines -> str_in "objects_info" line = false) ->
  find_gcode_objects_center lines = Fails (Raised TypeError).
Proof.
  intros Hno. unfold find_gcode_objects_center, objects_bbox.
  rewrite (objects_loop_no_metadata lines _ Hno). reflexivity.
Qed.

Lemma after_first_none (c : ascii) (s : string) :
  Py.contains c s = false -> after_first c s = None.
Proof.
  induction s as [| d s IH]; [reflexivity |].
  simpl. rewrite Ascii.eqb_sym. intros Hc.
  apply orb_false_elim in Hc. destruct Hc as [-> Hc]. apply IH, Hc.
Qed.

(** X19. The first line that holds [objects_info] decides when it has no
    [=]: [split("=", 1)[1]] raises an IndexError, whatever follows. *)
Theorem objects_center_metadata_without_equals (before after : list string)
  (line : string) :
  (forall l, In l before -> str_in "objects_info" l = false) ->
  str_in "objects_info" line = true ->
  Py.contains "=" line = false ->
  find_gcode_objects_center (before ++ line :: after)
  = Fails (Raised IndexError).
Proof.
  intros Hno Hin Heq. unfold find_gcode_objects_center, objects_bbox.
  generalize (@None num, @None num, @None num, @None num).
  induction before as [| l before IH]; intros st.
  - cbn [app objects_loop]. unfold objects_body.
    rewrite Hin, (after_first_none _ _ Heq). reflexivity.
  - cbn [app objects_loop]. unfold objects_body at 1.
    rewrite (Hno l) by (left; reflexivity). cbn [obind].
    apply IH. intros l' Hl'. apply Hno. right. exact Hl'.
Qed.






Lemma svg_loop_encloses (paths : list (num * num * num * num)) (b : bbox)
  (seen : num * num * num * num -> Prop) :
  order_laws ->
  (forall p, seen p ->
     not_below (bbox_min_x b) (fst (fst (fst p)))
     /\ not_above (bbox_max_x b) (snd (fst (fst p)))
     /\ not_below (bbox_min_y b) (snd (fst p))
     /\ not_above (bbox_max_y b) (snd p)) ->
  forall p, seen p \/ In p paths ->
    not_below (bbox_min_x (fold_left svg_body paths b)) (fst (fst (fst p)))
    /\ not_above (bbox_max_x (fold_left svg_body paths b))
         (snd (fst (fst p)))
    /\ not_below (bbox_min_y (fold_left svg_body paths b)) (snd (fst p))
    /\ not_above (bbox_max_y (fold_left svg_body paths b)) (snd p).
Proof.
  intros Hlaws. revert b seen.
  induction paths as [| q paths IH]; intros b seen Hseen p Hp.
  - destruct Hp as [Hp | []]. apply Hseen, Hp.
  - cbn [fold_left]. apply (IH (svg_body b q) (fun p => seen p \/ p = q)).
    + destruct b as [[[mx my] Mx] My]. destruct q as [[[x0 x1] y0] y1].
      unfold bbox_min_x, bbox_max_x, bbox_min_y, bbox_max_y. simpl.
      intros p' [Hp' | ->].
      * destruct (Hseen p' Hp') as [H1 [H2 [H3 H4]]].
        unfold bbox_min_x, bbox_max_x, bbox_min_y, bbox_max_y in *.
        simpl in *. auto using lower_below, upper_above.
      * simpl. auto using lower_self, upper_self.
    + destruct Hp as [Hp | [Hp | Hp]]; auto.
Qed.

(** X21. When [<] is irreflexive and transitive, the box of
    [find_svg_centre] encloses the box of every path: no path's xmin or ymin
    is below min_x or min_y, and no path's xmax or ymax is above max_x or
    max_y. *)
Theorem svg_bbox_encloses_paths (paths : list (num * num * num * num))
  (xmin xmax ymin ymax : num) :
  order_laws ->
  In (xmin, xmax, ymin, ymax) paths ->
  not_below (bbox_min_x (svg_bbox paths)) xmin
  /\ not_above (bbox_max_x (svg_bbox paths)) xmax
  /\ not_below (bbox_min_y (svg_bbox paths)) ymin
  /\ not_above (bbox_max_y (svg_bbox paths)) ymax.
Proof.
  intros Hlaws Hin.
  apply (svg_loop_encloses paths (None, None, None, None) (fun _ => False)
           Hlaws (fun p (F : False) => match F with end)
           (xmin, xmax, ymin, ymax)).
  right. exact Hin.
Qed.

End GeometryFacts.

(** ** The whole run *)

Section WholeRun.

Context `{GeometryOps}.




End WholeRun.

(** ** The geometry examples, in exact decimal arithmetic *)

Lemma dec_lt_rescale (a b : Dec.dec) (n : nat) :
  Nat.max (Dec.expo a) (Dec.expo b) <= n ->
  DecGeometry.lt a b
  = (Dec.mant a * Dec.pow10 (n - Dec.expo a)
     <? Dec.mant b * Dec.pow10 (n - Dec.expo b))%Z.
Proof.
  intros Hn. unfold DecGeometry.lt, Dec.pow10.
  set (e := Nat.max (Dec.expo a) (Dec.expo b)) in *.
  assert (Hpos : (0 < 10 ^ Z.of_nat (n - e))%Z)
    by (apply Z.pow_pos_nonneg; lia).
  replace (Z.of_nat (n - Dec.expo a))
    with (Z.of_nat (e - Dec.expo a) + Z.of_nat (n - e))%Z by lia.
  replace (Z.of_nat (n - Dec.expo b))
    with (Z.of_nat (e - Dec.expo b) + Z.of_nat (n - e))%Z by lia.
  rewrite !Z.pow_add_r by lia. rewrite !Z.mul_assoc.
  destruct (Z.ltb_spec (Dec.mant a * 10 ^ Z.of_nat (e - Dec.expo a))
              (Dec.mant b * 10 ^ Z.of_nat (e - Dec.expo b))) as [Hlt | Hge];
    symmetry; [apply Z.ltb_lt | apply Z.ltb_ge].
  - apply Z.mul_lt_mono_pos_r; assumption.
  - apply Z.mul_le_mono_nonneg_r; lia.
Qed.

Lemma dec_order_laws : order_laws (H0 := DecGeometry.ops).
Proof.
  split.
  - intros a. apply Z.ltb_irrefl.
  - intros a b c.
    set (n := Nat.max (Dec.expo a) (Nat.max (Dec.expo b) (Dec.expo c))).
    cbn [flt DecGeometry.ops].
    rewrite (dec_lt_rescale a b n), (dec_lt_rescale b c n),
      (dec_lt_rescale a c n) by lia.
    rewrite !Z.ltb_lt. apply Z.lt_trans.
Qed.

(** The four corners of the square lie in the box (5, 2)-(25, 22). *)
Lemma objects_bbox_encloses_points_witness :
  objects_bbox (H0 := DecGeometry.ops) DecGeometry.stream_with_metadata
  = Returns (Some (Dec.d 5 0), Some (Dec.d 2 0),
             Some (Dec.d 25 0), Some (Dec.d 22 0))
  /\ forall p,
      In p (metadata_points (H0 := DecGeometry.ops)
              DecGeometry.stream_with_metadata) ->
      between (H0 := DecGeometry.ops) (Some (Dec.d 5 0)) (Some (Dec.d 25 0))
        (fst p)
      /\ between (H0 := DecGeometry.ops) (Some (Dec.d 2 0)) (Some (Dec.d 22 0))
           (snd p).
Proof.
  assert (Hb : objects_bbox (H0 := DecGeometry.ops)
                 DecGeometry.stream_with_metadata
               = Returns (Some (Dec.d 5 0), Some (Dec.d 2 0),
                          Some (Dec.d 25 0), Some (Dec.d 22 0)))
    by (vm_compute; reflexivity).
  split; [exact Hb |].
  apply (objects_bbox_encloses_points (H0 := DecGeometry.ops) _ _
           dec_order_laws Hb).
Defined.

(** A stream of six lines without metadata. *)
Lemma objects_center_needs_metadata_witness :
  find_gcode_objects_center (H0 := DecGeometry.ops) Examples.stream_no_wipe
  = Fails (Raised TypeError).
Proof.
  apply (objects_center_needs_metadata (H0 := DecGeometry.ops)).
  intros line Hin. unfold Examples.stream_no_wipe in Hin.
  repeat (destruct Hin as [<- | Hin]; [reflexivity |]). destruct Hin.
Defined.

(** A comment that names the metadata, after a line without it. *)
Lemma objects_center_metadata_without_equals_witness :
  find_gcode_objects_center (H0 := DecGeometry.ops)
    ([ "G28" +++ Py.nl ] ++ ("; no objects_info here" +++ Py.nl)
                         :: [ DecGeometry.metadata_line ])
  = Fails (Raised IndexError).
Proof.
  apply (objects_center_metadata_without_equals (H0 := DecGeometry.ops)).
  - intros l [<- | []]. reflexivity.
  - reflexivity.
  - reflexivity.
Defined.

(** The first path of the drawing lies in the drawing's box
    (0, 0)-(20, 20). *)
Lemma svg_bbox_encloses_paths_witness :
  svg_bbox (H0 := DecGeometry.ops) DecGeometry.drawing
  = (Some (Dec.d 0 0), Some (Dec.d 0 0), Some (Dec.d 20 0), Some (Dec.d 20 0))
  /\ not_below (H0 := DecGeometry.ops)
       (bbox_min_x (svg_bbox (H0 := DecGeometry.ops) DecGeometry.drawing))
       (Dec.d 0 0)
  /\ not_above (H0 := DecGeometry.ops)
       (bbox_max_x (svg_bbox (H0 := DecGeometry.ops) DecGeometry.drawing))
       (Dec.d 12 0)
  /\ not_below (H0 := DecGeometry.ops)
       (bbox_min_y (svg_bbox (H0 := DecGeometry.ops) DecGeometry.drawing))
       (Dec.d 4 0)
  /\ not_above (H0 := DecGeometry.ops)
       (bbox_max_y (svg_bbox (H0 := DecGeometry.ops) DecGeometry.drawing))
       (Dec.d 20 0).
Proof.
  split; [vm_compute; reflexivity |].
  apply (svg_bbox_encloses_paths (H0 := DecGeometry.ops) DecGeometry.drawing
           (Dec.d 0 0) (Dec.d 12 0) (Dec.d 4 0) (Dec.d 20 0) dec_order_laws).
  left. reflexivity.
Defined.

